(** * PureAir: the live AQI aggregation and intelligence pipeline

    A shallow embedding of [services/aqiService] (station aggregation,
    resilient cache, intelligence engine, trend slope, ward interpolation)
    and of the forecast fallback of [getAqiForecast].

    Conventions of the embedding.
    - An AQI is a JavaScript number that is [NaN] or an integer; integers are
      kept exact in [Z].  A double is exact up to 2^53; beyond that JavaScript
      rounds, and from about 1.8e308 on it has [Infinity], where the embedding
      keeps the exact integer.  The properties that would differ there carry
      the range as a hypothesis ([positional], [safe], [short_readings]).
      The numbers inside a JSON document are of the same kind: a document
      with a fractional number is outside the embedding.
    - Strings are sequences of 8-bit characters; the white space [parseInt]
      skips is the ASCII one.
    - Slopes, coordinates and weights are rationals ([Q]): the arithmetic of
      the estimators is the exact one, which the doubles of the source follow
      up to rounding.
    - [localStorage] is a finite map from keys to strings.
    - An exception is an explicit outcome, [Throws].
    - The clock, the two upstream responses and the host's built-ins that are
      not modelled ([JSON.parse], [JSON.stringify], the numeric reading of a
      string, [toFixed]) are inputs. *)

From Stdlib Require Import ZArith QArith Qround Qabs String Ascii List Lia Bool.
From Stdlib Require Import DecimalString DecimalPos DecimalN DecimalZ.
From Stdlib Require Import Lqa.
From stdpp Require Import gmap strings.
Import ListNotations.

Local Open Scope string_scope.
Local Open Scope Z_scope.
Set Warnings "-register-all".

(** ** Numbers *)

Module Num.

Inductive number : Type :=
| NaN
| Int (z : Z).

Definition isNaN (n : number) : bool :=
  match n with NaN => true | Int _ => false end.

(** [a - b] *)
Definition sub (a b : number) : number :=
  match a, b with
  | Int x, Int y => Int (x - y)
  | _, _ => NaN
  end.

(** [a > b], [a < b], [a >= b], [a <= b]: false as soon as one side is NaN. *)
Definition gt (a b : number) : bool :=
  match a, b with Int x, Int y => y <? x | _, _ => false end.

Definition lt (a b : number) : bool :=
  match a, b with Int x, Int y => x <? y | _, _ => false end.

Definition ge (a b : number) : bool :=
  match a, b with Int x, Int y => y <=? x | _, _ => false end.

Definition le (a b : number) : bool :=
  match a, b with Int x, Int y => x <=? y | _, _ => false end.

(** [a === b] on numbers: NaN is not equal to itself. *)
Definition strict_eq (a b : number) : bool :=
  match a, b with Int x, Int y => x =? y | _, _ => false end.

(** [Math.max(x, ...xs)] with at least one argument. *)
Definition max2 (a b : number) : number :=
  match a, b with
  | Int x, Int y => Int (Z.max x y)
  | _, _ => NaN
  end.

Definition Math_max (x : number) (xs : list number) : number :=
  fold_left max2 xs x.

(** *** Printing: [Number.prototype.toString] *)

Definition digits_of (n : N) : string :=
  NilZero.string_of_uint (N.to_uint n).

Fixpoint drop_trailing_zeros (s : string) : string :=
  match s with
  | EmptyString => EmptyString
  | String c rest =>
      match drop_trailing_zeros rest with
      | EmptyString => if Ascii.eqb c "0" then EmptyString else String c EmptyString
      | rest' => String c rest'
      end
  end.

(** Exponent form, [d.ddde+N]: what [toString] prints from 10^21 on. *)
Definition exponent_form (n : N) : string :=
  match digits_of n with
  | EmptyString => EmptyString
  | String d rest =>
      let frac := drop_trailing_zeros rest in
      String d (match frac with EmptyString => "" | _ => "." ++ frac end)
        ++ "e+" ++ digits_of (N.of_nat (String.length rest))
  end.

Definition toString (n : number) : string :=
  match n with
  | NaN => "NaN"
  | Int z =>
      let m := Z.to_N (Z.abs z) in
      (if z <? 0 then "-" else "")
        ++ (if Z.abs z <? 10 ^ 21 then digits_of m else exponent_form m)
  end.

(** *** Parsing: the global [parseInt] with no radix argument *)

Definition is_white (c : ascii) : bool :=
  match nat_of_ascii c with
  | 9%nat | 10%nat | 11%nat | 12%nat | 13%nat | 32%nat => true
  | _ => false
  end.

Fixpoint skip_white (s : string) : string :=
  match s with
  | String c rest => if is_white c then skip_white rest else s
  | EmptyString => s
  end.

Definition digit_value (hex : bool) (c : ascii) : option Z :=
  let k := Z.of_nat (nat_of_ascii c) in
  if (48 <=? k) && (k <=? 57) then Some (k - 48)
  else if hex && (97 <=? k) && (k <=? 102) then Some (k - 87)
  else if hex && (65 <=? k) && (k <=? 70) then Some (k - 55)
  else None.

(** The longest prefix of digits, read left to right; [None] when the prefix
    is empty. *)
Fixpoint read_digits (hex : bool) (s : string) (acc : option Z) : option Z :=
  match s with
  | String c rest =>
      match digit_value hex c with
      | Some d =>
          let radix := if hex then 16 else 10 in
          read_digits hex rest
            (Some (match acc with Some a => a * radix + d | None => d end))
      | None => acc
      end
  | EmptyString => acc
  end.

Definition split_sign (s : string) : bool * string :=
  match s with
  | String "-" rest => (true, rest)
  | String "+" rest => (false, rest)
  | _ => (false, s)
  end.

Definition split_radix (s : string) : bool * string :=
  match s with
  | String "0" (String "x" rest) => (true, rest)
  | String "0" (String "X" rest) => (true, rest)
  | _ => (false, s)
  end.

Definition parseInt (s : string) : number :=
  let '(negative, s1) := split_sign (skip_white s) in
  let '(hex, s2) := split_radix s1 in
  match read_digits hex s2 None with
  | Some m => Int (if negative then - m else m)
  | None => NaN
  end.

End Num.
Export Num.

(** ** JavaScript values, as far as the pipeline reads them *)

(** What [JSON.parse] and [Response.json] yield, plus [undefined]. *)
Inductive value : Type :=
| VUndefined
| VNull
| VBool (b : bool)
| VNum (n : number)
| VStr (s : string)
| VArr (items : list value)
| VObj (fields : list (string * value)).

Fixpoint join_with (sep : string) (parts : list string) : string :=
  match parts with
  | [] => ""
  | [p] => p
  | p :: rest => p ++ sep ++ join_with sep rest
  end.

(** The abstract operation ToString, which [parseInt] applies to its
    argument first.  An array prints its items separated by commas, with
    [null] and [undefined] items printed as nothing. *)
Fixpoint ToString (v : value) : string :=
  match v with
  | VUndefined => "undefined"
  | VNull => "null"
  | VBool true => "true"
  | VBool false => "false"
  | VNum n => toString n
  | VStr s => s
  | VArr items =>
      join_with ","
        (List.map (fun x => match x with
                            | VUndefined | VNull => ""
                            | _ => ToString x
                            end) items)
  | VObj _ => "[object Object]"
  end.

(** Truthiness, as [if (x)] and [x || y] test it. *)
Definition truthy (v : value) : bool :=
  match v with
  | VUndefined | VNull => false
  | VBool b => b
  | VNum NaN => false
  | VNum (Int z) => negb (z =? 0)
  | VStr s => negb (String.eqb s "")
  | VArr _ | VObj _ => true
  end.

(** [x === 'ok'] *)
Definition is_string (v : value) (s : string) : bool :=
  match v with VStr t => String.eqb t s | _ => false end.

Fixpoint assoc (k : string) (fields : list (string * value)) : option value :=
  match fields with
  | [] => None
  | (k', v) :: rest => if String.eqb k k' then Some v else assoc k rest
  end.

(** ** Exceptions *)

Inductive exn : Type :=
| TypeError         (* a property read on null or undefined *)
| SyntaxError       (* JSON.parse, Response.json on a malformed body *)
| NetworkError.     (* fetch rejected *)

Inductive outcome (A : Type) : Type :=
| Returns (a : A)
| Throws (e : exn).
Arguments Returns {A} a.
Arguments Throws {A} e.

Definition bind {A B : Type} (m : outcome A) (k : A -> outcome B) : outcome B :=
  match m with
  | Returns a => k a
  | Throws e => Throws e
  end.

Declare Scope js_scope.
Delimit Scope js_scope with js.
Notation "'let*' x ':=' m 'in' k" := (bind m (fun x => k))
  (at level 10, x name, m at level 100, k at level 200) : js_scope.
Local Open Scope js_scope.

(** [try { m } catch (e) { handler }] *)
Definition try_catch {A : Type} (m : outcome A) (handler : outcome A) : outcome A :=
  match m with
  | Returns a => Returns a
  | Throws _ => handler
  end.

(** [v.k]: a TypeError on [null] and [undefined]; [undefined] when the
    property is missing.  The names the pipeline reads ([status], [data],
    [aqi], [timestamp], [dominentpol], [city], [name]) are own properties of
    objects only: no built-in prototype defines them. *)
Definition get (v : value) (k : string) : outcome value :=
  match v with
  | VUndefined | VNull => Throws TypeError
  | VObj fields =>
      Returns (match assoc k fields with Some x => x | None => VUndefined end)
  | VBool _ | VNum _ | VStr _ | VArr _ => Returns VUndefined
  end.

Fixpoint map_outcome {A B : Type} (f : A -> outcome B) (l : list A)
  : outcome (list B) :=
  match l with
  | [] => Returns []
  | x :: rest =>
      let* y := f x in
      let* ys := map_outcome f rest in
      Returns (y :: ys)
  end.

(** ** The types of [../types] the service uses *)

(** [AQILevel]: the members the sources name. *)
Inductive AQILevel : Type :=
| GOOD | MODERATE | POOR | SEVERE | HAZARDOUS.

Inductive Trend : Type := improving | worsening | stable.

(** ['increasing' | 'stable' | 'decreasing']; [steady] is the source's
    ['stable'], a name [Trend] has taken. *)
Inductive Prediction : Type := increasing | steady | decreasing.

(** [exposureMinutes: number | string] *)
Inductive Exposure : Type :=
| Minutes (m : Z)
| Unlimited.

Record Recommendation : Type := {
  mask : string;
  activity : string;
  school : string
}.

Record GRAPStage : Type := {
  stage : Z;
  label : string;
  description : string
}.

Record IntelligentAnalysis : Type := {
  riskLevel : AQILevel;
  trend : Trend;
  exposureMinutes : Exposure;
  sensitiveGroupWarning : string;
  recommendation : Recommendation;
  prediction : Prediction;
  grap : GRAPStage
}.

Record LiveAqiData : Type := {
  aqi : number;
  status : AQILevel;
  dominant : value;
  city : value;
  time : string;
  intelligence : IntelligentAnalysis
}.

(** ** The host *)

(** Built-ins the embedding takes as given, and the run-time values of the
    [AQILevel] members, whose declaration is not part of the service. *)
Class Host : Type := {
  (** [JSON.parse]; [None] is its SyntaxError. *)
  JSON_parse : string -> option value;
  JSON_stringify : value -> string;
  (** ToNumber on a string, as [-] and [>] coerce one. *)
  StringToNumber : string -> number;
  AQILevel_value : AQILevel -> value;
  (** [x.toFixed(digits)] *)
  Number_toFixed : Q -> Z -> string
}.

(** ToNumber, the coercion behind [now - timestamp] and [data.aqi > 0]. *)
Definition ToNumber `{Host} (v : value) : number :=
  match v with
  | VUndefined => NaN
  | VNull => Int 0
  | VBool true => Int 1
  | VBool false => Int 0
  | VNum n => n
  | VStr s => StringToNumber s
  | VArr _ | VObj _ => StringToNumber (ToString v)
  end.

(** [localStorage]: [st !! k] is [getItem(k)], [<[k:=v]> st] is
    [setItem(k, v)]. *)
Abbreviation Storage := (gmap string string).

(** [if (s)] on the result of [getItem]. *)
Definition present (item : option string) : option string :=
  match item with
  | Some s => if String.eqb s "" then None else Some s
  | None => None
  end.

(** ** services/aqiService *)

Definition DELHI_BOUNDS : string := "28.3,76.8,29.0,77.5".
Definition CACHE_KEY : string := "pureair_live_aqi".
Definition LAST_VALID_AQI_KEY : string := "pureair_last_valid_aqi".

Definition getStatusFromAQI (aqi : number) : AQILevel :=
  if gt aqi (Int 450) then HAZARDOUS
  else if gt aqi (Int 400) then SEVERE
  else if gt aqi (Int 300) then POOR      (* CPCB Very Poor *)
  else if gt aqi (Int 200) then POOR      (* CPCB Poor *)
  else if gt aqi (Int 100) then MODERATE
  else GOOD.

Definition getGRAPStage (aqi : number) : GRAPStage :=
  if ge aqi (Int 450) then
    {| stage := 4; label := "GRAP Stage IV";
       description := "Severe+: Truck Entry Ban, Odd-Even Scheme" |}
  else if ge aqi (Int 401) then
    {| stage := 3; label := "GRAP Stage III";
       description := "Severe: Construction & Demolition Ban" |}
  else if ge aqi (Int 301) then
    {| stage := 2; label := "GRAP Stage II";
       description := "Very Poor: Diesel Gen Set Ban, Parking Fee Hike" |}
  else if ge aqi (Int 201) then
    {| stage := 1; label := "GRAP Stage I";
       description := "Poor: Dust Control, Mechanized Sweeping" |}
  else
    {| stage := 0; label := "No GRAP Active";
       description := "Standard Pollution Control Measures" |}.

(** Step 1 of [calculateIntelligence], the trend against the stored last
    valid AQI.  Nothing in the [try] block throws, so its [catch] is dead. *)
Definition detect_trend (store : Storage) (aqi : number) : Trend :=
  match present (store !! LAST_VALID_AQI_KEY) with
  | Some last =>
      let prev := parseInt last in
      let delta := sub aqi prev in
      if gt delta (Int 5) then worsening
      else if lt delta (Int (-5)) then improving
      else stable
  | None => stable
  end.

(** Step 2, the diurnal heuristic on [new Date().getHours()]. *)
Definition micro_prediction (hour : Z) (t : Trend) : Prediction :=
  if ((22 <=? hour) || (hour <=? 9))
     && negb (match t with improving => true | _ => false end)
  then increasing
  else if (12 <=? hour) && (hour <=? 17) then decreasing
  else steady.

Definition calculateIntelligence (store : Storage) (hour : Z) (aqi : number)
  : IntelligentAnalysis :=
  let trend := detect_trend store aqi in
  let prediction := micro_prediction hour trend in
  let '(exposureMinutes, sensitiveGroupWarning, mask, activity, school) :=
    if gt aqi (Int 300) then
      (Minutes 0, "CRITICAL: Immediate Indoor Confinement",
       "N95/N99 Mandatory", "Avoid all outdoor exertion",
       "Remote Learning Recommended")
    else if gt aqi (Int 200) then
      (Minutes 15, "High Risk: Asthma/Elderly/Kids stay indoors",
       "N95 Recommended", "No outdoor exercise", "Suspend Outdoor Sports")
    else if gt aqi (Int 150) then
      (Minutes 30, "Moderate Risk for sensitive lungs",
       "Mask recommended for prolonged exposure", "Reduce intensity",
       "Limit Recess")
    else if gt aqi (Int 100) then
      (Minutes 60, "Sensitive groups reduce prolonged exertion",
       "Optional for sensitive groups", "Take breaks", "Open")
    else
      (Unlimited, "None", "None required", "Normal outdoor activity", "Open")
  in
  {| riskLevel := getStatusFromAQI aqi;
     trend := trend;
     exposureMinutes := exposureMinutes;
     sensitiveGroupWarning := sensitiveGroupWarning;
     recommendation := {| mask := mask; activity := activity; school := school |};
     prediction := prediction;
     grap := getGRAPStage aqi |}.

(** What one call of [fetchLiveCityAQI] sees of the outside world. *)
Record World : Type := {
  (** [Date.now()] *)
  now : Z;
  (** [new Date().getHours()] *)
  hour : Z;
  (** [toLocaleTimeString([], { hour: '2-digit', minute: '2-digit' })] *)
  clock_short : string;
  (** [toLocaleTimeString()] *)
  clock_long : string;
  (** [fetch] of the map/bounds endpoint followed by [res.json()] *)
  bounds_response : outcome value;
  (** [fetch] of the feed/here endpoint followed by [res.json()] *)
  feed_response : outcome value
}.

(** The objects handed to [JSON.stringify]. *)
Definition value_of_trend (t : Trend) : value :=
  VStr match t with
       | improving => "improving" | worsening => "worsening" | stable => "stable"
       end.

Definition value_of_prediction (p : Prediction) : value :=
  VStr match p with
       | increasing => "increasing" | steady => "stable" | decreasing => "decreasing"
       end.

Definition value_of_exposure (e : Exposure) : value :=
  match e with
  | Minutes m => VNum (Int m)
  | Unlimited => VStr "Unlimited"
  end.

Definition value_of_intelligence `{Host} (i : IntelligentAnalysis) : value :=
  VObj [ ("riskLevel", AQILevel_value (riskLevel i));
         ("trend", value_of_trend (trend i));
         ("exposureMinutes", value_of_exposure (exposureMinutes i));
         ("sensitiveGroupWarning", VStr (sensitiveGroupWarning i));
         ("recommendation",
           VObj [ ("mask", VStr (mask (recommendation i)));
                  ("activity", VStr (activity (recommendation i)));
                  ("school", VStr (school (recommendation i))) ]);
         ("prediction", value_of_prediction (prediction i));
         ("grap",
           VObj [ ("stage", VNum (Int (stage (grap i))));
                  ("label", VStr (label (grap i)));
                  ("description", VStr (description (grap i))) ]) ].

Definition value_of_result `{Host} (r : LiveAqiData) : value :=
  VObj [ ("aqi", VNum (aqi r));
         ("status", AQILevel_value (status r));
         ("dominant", dominant r);
         ("city", city r);
         ("time", VStr (time r));
         ("intelligence", value_of_intelligence (intelligence r)) ].

(** What the promise resolves to: the [data] of a cache entry as it was
    parsed, or a freshly built record. *)
Inductive Resolved : Type :=
| Cached (data : value)
| Built (r : LiveAqiData).

(** Step 1: the body of the first [try].  [Returns (Some data)] is the early
    [return data]; [Returns None] falls through. *)
Definition read_cache `{Host} (store : Storage) (now : Z) : outcome (option value) :=
  match present (store !! CACHE_KEY) with
  | Some cached =>
      let* parsed :=
        match JSON_parse cached with
        | Some v => Returns v
        | None => Throws SyntaxError
        end in
      let* data := get parsed "data" in
      let* timestamp := get parsed "timestamp" in
      if lt (sub (Int now) (ToNumber timestamp)) (Int (10 * 60 * 1000)) then
        let* a := get data "aqi" in
        if gt (ToNumber a) (Int 0) then Returns (Some data) else Returns None
      else Returns None
  | None => Returns None
  end.

(** Step 1 with its [catch], which only warns. *)
Definition cache_check `{Host} (store : Storage) (now : Z) : option value :=
  match read_cache store now with
  | Returns hit => hit
  | Throws _ => None
  end.

(** Step 2: the station values that survive the filter. *)
Definition validStations (data : list value) : outcome (list number) :=
  let* parsed :=
    map_outcome (fun s => let* a := get s "aqi" in Returns (parseInt (ToString a)))
      data in
  Returns (List.filter (fun val => negb (isNaN val) && gt val (Int 0)) parsed).

(** Step 2: [currentAqi] after the aggregation over the bounds response. *)
Definition aggregate (json : value) : outcome number :=
  let* st := get json "status" in
  if is_string st "ok" then
    let* data := get json "data" in
    match data with
    | VArr (s :: rest) =>
        let* valid := validStations (s :: rest) in
        match valid with
        | v :: vs => Returns (Math_max v vs)
        | [] => Returns (Int 0)
        end
    | _ => Returns (Int 0)
    end
  else Returns (Int 0).

(** Step 3: the single feed, asked only when the aggregation left 0. *)
Definition city_feed (w : World) (currentAqi : number)
  : outcome (number * value * value) :=
  let unchanged := (currentAqi, VStr "PM2.5", VStr "Delhi NCT") in
  if strict_eq currentAqi (Int 0) then
    let* jsonFallback := feed_response w in
    let* st := get jsonFallback "status" in
    if is_string st "ok" then
      let* data := get jsonFallback "data" in
      let* a := get data "aqi" in
      let* pol := get data "dominentpol" in
      let* c := get data "city" in
      let* name := get c "name" in
      Returns (parseInt (ToString a),
               (if truthy pol then pol else VStr "PM2.5"),
               name)
    else Returns unchanged
  else Returns unchanged.

(** Step 4: the failsafe on the stored last valid AQI. *)
Definition failsafe (store : Storage) (currentAqi : number) : number :=
  if isNaN currentAqi || le currentAqi (Int 0) then
    match present (store !! LAST_VALID_AQI_KEY) with
    | Some last => parseInt last
    | None => Int 345
    end
  else currentAqi.

(** The body of the second [try]: steps 2 to 4, the two writes and the
    result.  Every statement that can throw comes before the first write. *)
Definition pipeline `{Host} (store : Storage) (w : World)
  : outcome (LiveAqiData * Storage) :=
  let* json := bounds_response w in
  let* aggregated := aggregate json in
  let* fed := city_feed w aggregated in
  let '(fetched, dominant, city) := fed in
  let currentAqi := failsafe store fetched in
  let store1 := <[LAST_VALID_AQI_KEY := toString currentAqi]> store in
  let intelligence := calculateIntelligence store1 (hour w) currentAqi in
  let result :=
    {| aqi := currentAqi;
       status := getStatusFromAQI currentAqi;
       dominant := dominant;
       city := city;
       time := clock_short w;
       intelligence := intelligence |} in
  let entry := VObj [ ("data", value_of_result result);
                      ("timestamp", VNum (Int (now w))) ] in
  let store2 := <[CACHE_KEY := JSON_stringify entry]> store1 in
  Returns (result, store2).

(** The [catch] of the second [try]. *)
Definition recover `{Host} (store : Storage) (w : World) : outcome Resolved :=
  match present (store !! CACHE_KEY) with
  | Some cached =>
      let* parsed :=
        match JSON_parse cached with
        | Some v => Returns v
        | None => Throws SyntaxError
        end in
      let* data := get parsed "data" in
      Returns (Cached data)
  | None =>
      Returns (Built {| aqi := Int 345;
                        status := SEVERE;
                        dominant := VStr "PM2.5";
                        city := VStr "Delhi (Offline Mode)";
                        time := clock_long w;
                        intelligence := calculateIntelligence store (hour w) (Int 345) |})
  end.

(** [fetchLiveCityAQI]: the resolution of the promise (a [Throws] is its
    rejection) and the store it leaves. *)
Definition fetchLiveCityAQI `{Host} (store : Storage) (w : World)
  : outcome Resolved * Storage :=
  match cache_check store (now w) with
  | Some data => (Returns (Cached data), store)
  | None =>
      match pipeline store w with
      | Returns (result, store') => (Returns (Built result), store')
      | Throws _ => (recover store w, store)
      end
  end.

(** ** The estimators, over exact rationals *)

Local Open Scope Q_scope.

(** [Math.round]: to the nearest integer, a tie going up. *)
Definition Math_round (x : Q) : Z := Qfloor (x + (1 # 2)).

(** An entry of the history handed to [calculateTrendSlope]. *)
Record HistoryPoint : Type := { point_aqi : Q }.

Record Sums : Type := { sumX : Q; sumY : Q; sumXY : Q; sumX2 : Q }.

(** The body of the [for] loop, from index [i] on. *)
Fixpoint accumulate (i : Z) (history : list HistoryPoint) (s : Sums) : Sums :=
  match history with
  | [] => s
  | p :: rest =>
      let x := inject_Z i in
      let y := point_aqi p in
      accumulate (i + 1) rest
        {| sumX := sumX s + x; sumY := sumY s + y;
           sumXY := sumXY s + x * y; sumX2 := sumX2 s + x * x |}
  end.

Definition calculateTrendSlope (history : list HistoryPoint) : Q :=
  let n := Z.of_nat (List.length history) in
  if (n <? 2)%Z then 0
  else
    let s := accumulate 0 history {| sumX := 0; sumY := 0; sumXY := 0; sumX2 := 0 |} in
    let denominator := inject_Z n * sumX2 s - sumX s * sumX s in
    if Qeq_bool denominator 0 then 0
    else (inject_Z n * sumXY s - sumX s * sumY s) / denominator.

(** A [Station] as [fetchRealTimeStations] builds it: [aqi] is a [parseInt]. *)
Record Station : Type := {
  uid : Z;
  lat : Q;
  lon : Q;
  station_aqi : Z;
  stationName : string
}.

Record WardEstimate : Type := { ward_aqi : Z; nearest : string }.

(** The mutable locals of [interpolateWardAQI].  The source keeps the
    distance [d = Math.sqrt(...)]; it uses [d] only as [Math.pow(d, 2)] and in
    [d < minDist], and over exact arithmetic both are functions of the
    squared distance, which is what [minDist2] holds ([None] is [Infinity]). *)
Record IdwState : Type := {
  totalWeight : Q;
  weightedAQISum : Q;
  minDist2 : option Q;
  nearestStationName : string
}.

Definition distance2 (centroid : Q * Q) (s : Station) : Q :=
  (lat s - fst centroid) * (lat s - fst centroid)
  + (lon s - snd centroid) * (lon s - snd centroid).

(** One turn of the [forEach]. *)
Definition idw_step (centroid : Q * Q) (acc : IdwState) (s : Station) : IdwState :=
  let d2 := distance2 centroid s in
  let closer := match minDist2 acc with
                | None => true
                | Some m => negb (Qle_bool m d2)
                end in
  let weight := 1 / (d2 + (1 # 100000)) in
  {| totalWeight := totalWeight acc + weight;
     weightedAQISum := weightedAQISum acc + inject_Z (station_aqi s) * weight;
     minDist2 := if closer then Some d2 else minDist2 acc;
     nearestStationName := if closer then stationName s else nearestStationName acc |}.

Definition interpolateWardAQI (wardCentroid : Q * Q) (stations : list Station)
  : WardEstimate :=
  match stations with
  | [] => {| ward_aqi := 150; nearest := "Historical Node" |}
  | first :: _ =>
      let final :=
        fold_left (idw_step wardCentroid) stations
          {| totalWeight := 0; weightedAQISum := 0; minDist2 := None;
             nearestStationName := stationName first |} in
      {| ward_aqi := Math_round (weightedAQISum final / totalWeight final);
         nearest := nearestStationName final |}
  end.

(** ** The forecast cache of the Gemini service *)

Module Forecast.

Record AtmosphericPrediction : Type := {
  hours : Z;
  aqi : Z;
  primaryPollutant : string;
  riskLevel : string;
  confidence : Z;
  explanation : string
}.

Record CacheEntry : Type := {
  data : list AtmosphericPrediction;
  timestamp : Z
}.

Definition FORECAST_CACHE_TTL : Z := 15 * 60 * 1000.

(** The cache key.  The source prints [Math.round(currentAqi / 5) * 5] and
    [Math.round(trendSlope * 10) / 10] into one string; the key here is the
    pair of integers that string determines, the second one before its
    division by 10. *)
Definition cacheKey (currentAqi trendSlope : Q) : Z * Z :=
  ((Math_round (currentAqi / 5) * 5)%Z, Math_round (trendSlope * 10)).

Abbreviation ForecastCache := (gmap (Z * Z) CacheEntry).

(** The linear projection of the [catch] branch at one horizon. *)
Definition project `{Host} (currentAqi trendSlope : Q) (h : Z) : AtmosphericPrediction :=
  let predicted := Z.max 0 (Math_round (currentAqi + trendSlope * inject_Z h)) in
  {| hours := h;
     aqi := predicted;
     primaryPollutant := "PM2.5";
     riskLevel := if (300 <? predicted)%Z then "Extreme"
                  else if (200 <? predicted)%Z then "High"
                  else "Medium";
     confidence := 65;
     explanation := "Linear projection based on current slope ("
                      ++ Number_toFixed trendSlope 2 ++ " units/hr)." |}.

(** [getAqiForecast].  [model] is the outcome of the whole [try] block up to
    its [JSON.parse]: the predictions the model returned, or [None] when the
    call, the empty-text check or the parse threw. *)
Definition getAqiForecast `{Host} (cache : ForecastCache) (now : Z)
    (model : option (list AtmosphericPrediction)) (currentAqi trendSlope : Q)
  : list AtmosphericPrediction * ForecastCache :=
  let key := cacheKey currentAqi trendSlope in
  let fresh := match cache !! key with
               | Some cached =>
                   if (now - timestamp cached <? FORECAST_CACHE_TTL)%Z
                   then Some (data cached) else None
               | None => None
               end in
  match fresh with
  | Some predictions => (predictions, cache)
  | None =>
      match model with
      | Some predictions =>
          (predictions, <[key := {| data := predictions; timestamp := now |}]> cache)
      | None =>
          (List.map (project currentAqi trendSlope) [24; 48; 72]%Z, cache)
      end
  end.

End Forecast.

Local Close Scope Q_scope.

(** ** The rest of services/aqiService *)

(** [x || 0] on a number: NaN and 0 are falsy. *)
Definition or_zero (n : number) : number :=
  match n with
  | NaN => Int 0
  | Int z => if z =? 0 then Int 0 else Int z
  end.

(** A station as [fetchRealTimeStations] hands it on: [uid], [lat], [lon] and
    the name as the answer had them, the AQI parsed. *)
Record FetchedStation : Type := {
  fetched_uid : value;
  fetched_lat : value;
  fetched_lon : value;
  fetched_aqi : number;
  fetched_name : value
}.

(** The callback of [json.data.map].  [uid], [lat], [lon], [station] are, like
    the names [get] lists, own properties of objects only. *)
Definition station_of (s : value) : outcome FetchedStation :=
  let* uid := get s "uid" in
  let* lat := get s "lat" in
  let* lon := get s "lon" in
  let* a := get s "aqi" in
  let* station := get s "station" in
  let* name := get station "name" in
  Returns {| fetched_uid := uid; fetched_lat := lat; fetched_lon := lon;
             fetched_aqi := or_zero (parseInt (ToString a));
             fetched_name := name |}.

(** The body of the [try] of [fetchRealTimeStations].  [json.data.map] is a
    TypeError unless [json.data] is an array. *)
Definition read_stations (response : outcome value) : outcome (list FetchedStation) :=
  let* json := response in
  let* st := get json "status" in
  if negb (is_string st "ok") then Returns []
  else
    let* data := get json "data" in
    match data with
    | VArr items =>
        let* mapped := map_outcome station_of items in
        Returns (List.filter (fun s => gt (fetched_aqi s) (Int 0)) mapped)
    | _ => Throws TypeError
    end.

(** [fetchRealTimeStations], given the answer of the map/bounds endpoint. *)
Definition fetchRealTimeStations (response : outcome value) : list FetchedStation :=
  match read_stations response with
  | Returns stations => stations
  | Throws _ => []
  end.

(** ** The dashboard header of [App] *)


(** [if (live)] on what the promise resolved to. *)
Definition resolved_truthy (res : Resolved) : bool :=
  match res with
  | Cached data => truthy data
  | Built _ => true
  end.

(** One tick of the ten-minute interval of [App]: [const live = await
    fetchLiveCityAQI(); if (live) setLiveAqi(live)].  The state is [liveAqi]
    and the store; a rejected promise leaves [liveAqi] as it was. *)
Definition refresh `{Host} (state : option Resolved * Storage) (w : World)
  : option Resolved * Storage :=
  let '(liveAqi, store) := state in
  match fetchLiveCityAQI store w with
  | (Returns live, store') =>
      ((if resolved_truthy live then Some live else liveAqi), store')
  | (Throws _, store') => (liveAqi, store')
  end.

(** The start-up call of [init], run beside [loadDelhiWards] under one
    [Promise.all]: the fetch always runs, but its result is only shown when
    the wards loaded too ([wards_loaded]). *)
Definition startup `{Host} (wards_loaded : bool) (store : Storage) (w : World)
  : option Resolved * Storage :=
  match fetchLiveCityAQI store w with
  | (Returns live, store') =>
      ((if wards_loaded && resolved_truthy live then Some live else None), store')
  | (Throws _, store') => (None, store')
  end.

(** The ticks of a session, one per world met. *)
Definition refresh_all `{Host} (state : option Resolved * Storage) (ws : list World)
  : option Resolved * Storage :=
  fold_left refresh ws state.

(** A session of [App]: the start-up call, then the ticks. *)
Definition session `{Host} (wards_loaded : bool) (store : Storage)
    (w : World) (ws : list World) : option Resolved * Storage :=
  refresh_all (startup wards_loaded store w) ws.

Record StatusLabel : Type := {
  status_label : string;
  status_color : string;
  status_bg : string
}.

Definition getAqiStatusLabel (aqi : number) : StatusLabel :=
  if gt aqi (Int 400) then
    {| status_label := "SEVERE"; status_color := "border-rose-500 text-rose-500";
       status_bg := "bg-rose-500/10" |}
  else if gt aqi (Int 300) then
    {| status_label := "V. POOR"; status_color := "border-purple-500 text-purple-500";
       status_bg := "bg-purple-500/10" |}
  else if gt aqi (Int 200) then
    {| status_label := "POOR"; status_color := "border-amber-500 text-amber-500";
       status_bg := "bg-amber-500/10" |}
  else if gt aqi (Int 100) then
    {| status_label := "MODERATE"; status_color := "border-yellow-500 text-yellow-500";
       status_bg := "bg-yellow-500/10" |}
  else
    {| status_label := "GOOD"; status_color := "border-green-400 text-green-400";
       status_bg := "bg-green-400/10" |}.

(** ** The mitigation plan of the Gemini service *)

Fixpoint drop_trailing_white (s : string) : string :=
  match s with
  | EmptyString => EmptyString
  | String c rest =>
      match drop_trailing_white rest with
      | EmptyString => if is_white c then EmptyString else String c EmptyString
      | rest' => String c rest'
      end
  end.

(** [String.prototype.trim], on ASCII white space. *)
Definition trim (s : string) : string := drop_trailing_white (skip_white s).

Record MitigationPlan : Type := {
  summary : value;
  steps : value;
  priority : value
}.

(** [getMitigationPlan].  [response] is the outcome of [generateContent]
    and, when it returned, its [text] ([None] is [undefined]). *)
Definition getMitigationPlan `{Host} (response : outcome (option string))
  : MitigationPlan :=
  let attempt :=
    let* text := response in
    let* data :=
      match present text with
      | Some t =>
          match JSON_parse (trim t) with
          | Some v => Returns v
          | None => Throws SyntaxError
          end
      | None => Returns (VObj [])
      end in
    let* s := get data "summary" in
    let* st := get data "steps" in
    let* pr := get data "priority" in
    Returns
      {| summary := if truthy s then s else VStr "Awaiting detailed analysis...";
         steps := if truthy st then st
                  else VArr [ VStr "Implement dust control measures";
                              VStr "Enhance public transport usage" ];
         priority := if truthy pr then pr else VStr "Medium" |} in
  match attempt with
  | Returns plan => plan
  | Throws _ =>
      {| summary := VStr "Local analysis recommends immediate reduction in vehicular traffic. Est. impact: 12% AQI reduction.";
         steps := VArr [ VStr "Enforce odd-even rules"; VStr "Halt construction" ];
         priority := VStr "High" |}
  end.

(** ** Readings in the exact range

    A double holds every integer of magnitude below 2^53, and only there are
    the integers of the embedding the numbers of the source: a reading of
    309 digits is an exact integer here and [Infinity] there.  The
    properties that depend on the range state it on what the endpoints
    deliver, with the predicates below. *)

Definition safe (n : number) : Prop :=
  match n with
  | NaN => True
  | Int z => Z.abs z < 2 ^ 53
  end.

(** A reading that prints in at most 15 characters: [parseInt] makes NaN or
    a safe integer of it, having at most 15 decimal or 13 hexadecimal digits
    to read. *)
Definition short_reading (a : value) : bool :=
  (String.length (ToString a) <=? 15)%nat.

(** The [aqi] of every station of an answer of the bounds endpoint is
    short. *)
Definition short_stations (response : outcome value) : bool :=
  match response with
  | Returns json =>
      match get json "data" with
      | Returns (VArr items) =>
          forallb (fun s => match get s "aqi" with
                            | Returns a => short_reading a
                            | Throws _ => true
                            end) items
      | _ => true
      end
  | Throws _ => true
  end.

(** The [aqi] of an answer of the feed endpoint is short. *)
Definition short_feed (response : outcome value) : bool :=
  match response with
  | Returns feed =>
      match get feed "data" with
      | Returns data =>
          match get data "aqi" with
          | Returns a => short_reading a
          | Throws _ => true
          end
      | Throws _ => true
      end
  | Throws _ => true
  end.

Definition short_readings (w : World) : bool :=
  short_stations (bounds_response w) && short_feed (feed_response w).

(** ** Reference definitions, from the words of the specification *)

(** Section 4.3, "Risk level, ordered bins": the six bins cut at 450, 400,
    300, 200 and 100, each open below. *)
Inductive RiskBin : Type :=
| above_450 | above_400 | above_300 | above_200 | above_100 | at_most_100.

Definition risk_bin (a : Z) : RiskBin :=
  if 450 <? a then above_450
  else if 400 <? a then above_400
  else if 300 <? a then above_300
  else if 200 <? a then above_200
  else if 100 <? a then above_100
  else at_most_100.

(** Section 4.6: the forecast fallback's classification, read off the bins
    of the risk level; the three labels are the source's. *)
Definition fallback_class (b : RiskBin) : string :=
  match b with
  | above_450 | above_400 | above_300 => "Extreme"
  | above_200 => "High"
  | above_100 | at_most_100 => "Medium"
  end.

(** Section 4.1, step 2: "discard entries that are non-numeric or <= 0". *)
Definition valid_readings (parsed : list number) : list number :=
  List.filter (fun v => match v with Int z => 0 <? z | NaN => false end) parsed.

(** The numbers [toString] prints in positional notation: NaN apart, those
    of magnitude below 10^21. *)
Definition positional (n : number) : Prop :=
  match n with
  | NaN => True
  | Int z => Z.abs z < 10 ^ 21
  end.

(** Section 4.2: the last-valid slot is a single positive integer, one a
    double holds exactly, or nothing.  An empty text counts as nothing, as
    [if (last)] has it. *)
Definition sane_slot (item : option string) : Prop :=
  match present item with
  | Some last => exists p, parseInt last = Int p /\ 0 < p < 2 ^ 53
  | None => True
  end.

(** Section 4.5: the least-squares slope of [y] against [x = 0..n-1]. *)
Definition sigma (n : nat) (f : nat -> Q) : Q :=
  fold_right Qplus 0%Q (List.map f (seq 0 n)).

Definition ols_numerator (y : nat -> Q) (n : nat) : Q :=
  (inject_Z (Z.of_nat n) * sigma n (fun x => inject_Z (Z.of_nat x) * y x)
   - sigma n (fun x => inject_Z (Z.of_nat x)) * sigma n y)%Q.

Definition ols_denominator (n : nat) : Q :=
  (inject_Z (Z.of_nat n) * sigma n (fun x => inject_Z (Z.of_nat x) * inject_Z (Z.of_nat x))
   - sigma n (fun x => inject_Z (Z.of_nat x)) * sigma n (fun x => inject_Z (Z.of_nat x)))%Q.

Definition ols_slope (y : nat -> Q) (n : nat) : Q :=
  (ols_numerator y n / ols_denominator n)%Q.

(** The series as a function of the index. *)
Definition series (history : list HistoryPoint) (x : nat) : Q :=
  point_aqi (nth x history {| point_aqi := 0 |}).

(** ** Inputs of the worked examples *)

(** The text of a live-cache entry written at 1699999900000 for AQI 412,
    with its parse.  [quoted] puts a word between double quotes. *)
Definition quoted (word : string) : string :=
  String (ascii_of_nat 34) (word ++ String (ascii_of_nat 34) "").

Definition entry_text : string :=
  "{" ++ quoted "data" ++ ":{" ++ quoted "aqi" ++ ":412},"
      ++ quoted "timestamp" ++ ":1699999900000}".

Definition entry_value : value :=
  VObj [ ("data", VObj [ ("aqi", VNum (Int 412)) ]);
         ("timestamp", VNum (Int 1699999900000)) ].

(** A host to run the examples on.  The examples hand [JSON.parse] three
    texts: [null], the entry above, and the truncated [{oops], which it
    rejects as the real one does.  No conclusion drawn below depends on the
    other built-ins. *)
Definition example_host : Host :=
  {| JSON_parse := fun text =>
       if String.eqb text "null" then Some VNull
       else if String.eqb text entry_text then Some entry_value
       else None;
     JSON_stringify := fun _ => "{}";
     StringToNumber := fun _ => NaN;
     AQILevel_value := fun level =>
       VStr match level with
            | GOOD => "Good" | MODERATE => "Moderate" | POOR => "Poor"
            | SEVERE => "Severe" | HAZARDOUS => "Hazardous"
            end;
     Number_toFixed := fun _ _ => "0.00" |}.

(** An upstream answer whose status is not ['ok']. *)
Definition refused : value := VObj [ ("status", VStr "error") ].

Definition bounds_of (readings : list value) : value :=
  VObj [ ("status", VStr "ok");
         ("data", VArr (List.map (fun a => VObj [ ("aqi", a) ]) readings)) ].

Definition world_of (bounds feed : outcome value) : World :=
  {| now := 1700000000000; hour := 3;
     clock_short := "03:00 AM"; clock_long := "3:00:00 AM";
     bounds_response := bounds; feed_response := feed |}.

(** The same world at a later time. *)
Definition later (w : World) (ms : Z) : World :=
  {| now := now w + ms; hour := hour w;
     clock_short := clock_short w; clock_long := clock_long w;
     bounds_response := bounds_response w; feed_response := feed_response w |}.

(** The cache entry of the run on one station reading 412, and a host whose
    [JSON.stringify] and [JSON.parse] agree on it: the first prints every
    value as the one text the second reads back as that entry. *)
Definition sample_world : World :=
  world_of (Returns (bounds_of [VStr "412"])) (Returns refused).

Definition sample_entry : value :=
  match pipeline (H := example_host) ∅ sample_world with
  | Returns (r, _) =>
      VObj [ ("data", value_of_result (H := example_host) r);
             ("timestamp", VNum (Int (now sample_world))) ]
  | Throws _ => VNull
  end.

Definition echo_host : Host :=
  {| JSON_parse := fun text =>
       if String.eqb text "[entry]" then Some sample_entry else None;
     JSON_stringify := fun _ => "[entry]";
     StringToNumber := fun _ => NaN;
     AQILevel_value := AQILevel_value (Host := example_host);
     Number_toFixed := fun _ _ => "0.00" |}.

(** The value of a decimal numeral read left to right from [acc], the way
    [read_digits] reads its text. *)
Fixpoint uint_value (u : Decimal.uint) (acc : Z) : Z :=
  match u with
  | Decimal.Nil => acc
  | Decimal.D0 l => uint_value l (acc * 10 + 0)
  | Decimal.D1 l => uint_value l (acc * 10 + 1)
  | Decimal.D2 l => uint_value l (acc * 10 + 2)
  | Decimal.D3 l => uint_value l (acc * 10 + 3)
  | Decimal.D4 l => uint_value l (acc * 10 + 4)
  | Decimal.D5 l => uint_value l (acc * 10 + 5)
  | Decimal.D6 l => uint_value l (acc * 10 + 6)
  | Decimal.D7 l => uint_value l (acc * 10 + 7)
  | Decimal.D8 l => uint_value l (acc * 10 + 8)
  | Decimal.D9 l => uint_value l (acc * 10 + 9)
  end.

(** * Properties *)

(** ** Numbers: printing and reading back *)

Example parseInt_plain : parseInt "152" = Int 152.
Proof. reflexivity. Qed.

Example parseInt_dash : parseInt "-" = NaN.
Proof. reflexivity. Qed.

Example parseInt_prefix : parseInt " 42.7px" = Int 42.
Proof. reflexivity. Qed.

Example parseInt_negative : parseInt "-17" = Int (-17).
Proof. reflexivity. Qed.

Example parseInt_hex : parseInt "0x1F" = Int 31.
Proof. reflexivity. Qed.

Example parseInt_exponent_text : parseInt "1e+21" = Int 1.
Proof. reflexivity. Qed.

Example parseInt_array : parseInt (ToString (VArr [VNum (Int 88); VNull])) = Int 88.
Proof. reflexivity. Qed.

Example toString_small : toString (Int (-345)) = "-345".
Proof. reflexivity. Qed.

Example toString_largest_positional : toString (Int (10 ^ 21 - 1)) = "999999999999999999999".
Proof. vm_compute. reflexivity. Qed.

Example toString_exponent : toString (Int (10 ^ 21)) = "1e+21".
Proof. vm_compute. reflexivity. Qed.

Example toString_exponent_fraction : toString (Int (12 * 10 ^ 20)) = "1.2e+21".
Proof. vm_compute. reflexivity. Qed.


Lemma read_digits_uint_some (u : Decimal.uint) (a : Z) :
  read_digits false (NilEmpty.string_of_uint u) (Some a) = Some (uint_value u a).
Proof.
  revert a. induction u; intros a; simpl; try reflexivity; apply IHu.
Qed.

Lemma read_digits_uint_none (u : Decimal.uint) :
  u <> Decimal.Nil ->
  read_digits false (NilEmpty.string_of_uint u) None = Some (uint_value u 0).
Proof.
  destruct u; intros Hu; try congruence; simpl; apply read_digits_uint_some.
Qed.

Lemma of_uint_acc_value (u : Decimal.uint) (p : positive) :
  Z.pos (Pos.of_uint_acc u p) = uint_value u (Z.pos p).
Proof.
  revert p. induction u; intros p; simpl; try reflexivity;
    rewrite IHu; f_equal; lia.
Qed.

Lemma of_uint_value (u : Decimal.uint) :
  Z.of_N (Pos.of_uint u) = uint_value u 0.
Proof.
  induction u; simpl; try reflexivity; try assumption;
    apply of_uint_acc_value.
Qed.

Lemma to_uint_not_nil (n : N) : N.to_uint n <> Decimal.Nil.
Proof.
  destruct n as [|p]; simpl; [discriminate | apply Unsigned.to_uint_nonnil].
Qed.

Lemma digits_of_unfold (n : N) :
  digits_of n = NilEmpty.string_of_uint (N.to_uint n).
Proof.
  unfold digits_of, NilZero.string_of_uint.
  pose proof (to_uint_not_nil n) as Hn.
  destruct (N.to_uint n); congruence.
Qed.

Lemma read_digits_digits_of (n : N) :
  read_digits false (digits_of n) None = Some (Z.of_N n).
Proof.
  rewrite digits_of_unfold, read_digits_uint_none by apply to_uint_not_nil.
  rewrite <- of_uint_value.
  change (Pos.of_uint (N.to_uint n)) with (N.of_uint (N.to_uint n)).
  now rewrite DecimalN.Unsigned.of_to.
Qed.

(** A printed natural starts with a digit: no white space to skip, no sign,
    and no [0x] prefix. *)
Lemma digits_of_head (n : N) :
  skip_white (digits_of n) = digits_of n
  /\ split_sign (digits_of n) = (false, digits_of n)
  /\ split_radix (digits_of n) = (false, digits_of n).
Proof.
  rewrite digits_of_unfold.
  pose proof (to_uint_not_nil n) as Hn.
  destruct (N.to_uint n) as [|u|u|u|u|u|u|u|u|u|u]; try congruence;
    destruct u; repeat split; reflexivity.
Qed.

Lemma parseInt_digits_of (n : N) : parseInt (digits_of n) = Int (Z.of_N n).
Proof.
  unfold parseInt.
  destruct (digits_of_head n) as (Hw & Hs & Hr).
  rewrite Hw, Hs, Hr, read_digits_digits_of. reflexivity.
Qed.

Lemma parseInt_minus_digits_of (n : N) :
  parseInt ("-" ++ digits_of n) = Int (- Z.of_N n).
Proof.
  destruct (digits_of_head n) as (_ & _ & Hr).
  change ("-" ++ digits_of n) with (String "-" (digits_of n)).
  unfold parseInt.
  change (skip_white (String "-" (digits_of n))) with (String "-" (digits_of n)).
  change (split_sign (String "-" (digits_of n))) with (true, digits_of n).
  cbv beta iota.
  rewrite Hr, read_digits_digits_of. reflexivity.
Qed.

(** Below 10^21 a number prints in positional notation and [parseInt] reads
    it back. *)
Lemma parseInt_toString (z : Z) :
  Z.abs z < 10 ^ 21 -> parseInt (toString (Int z)) = Int z.
Proof.
  intros Hz. unfold toString.
  apply Z.ltb_lt in Hz. rewrite Hz.
  destruct (z <? 0) eqn:Hneg.
  - apply Z.ltb_lt in Hneg. rewrite parseInt_minus_digits_of. f_equal. lia.
  - apply Z.ltb_ge in Hneg.
    change ("" ++ digits_of (Z.to_N (Z.abs z))) with (digits_of (Z.to_N (Z.abs z))).
    rewrite parseInt_digits_of. f_equal. lia.
Qed.

Lemma parseInt_toString_NaN : parseInt (toString NaN) = NaN.
Proof. reflexivity. Qed.

(** ** The rule tables of the intelligence engine *)

Ltac split_bins :=
  repeat match goal with
         | |- context [Z.ltb ?a ?b] => destruct (Z.ltb_spec a b)
         | |- context [Z.leb ?a ?b] => destruct (Z.leb_spec a b)
         end;
  simpl; try reflexivity; try lia.

(** C4, as the code has it: [getStatusFromAQI] sends every integer AQI to one
    of five levels by ordered bins, above 450 to HAZARDOUS, (400,450] to
    SEVERE, (200,400] to POOR (the CPCB very-poor and poor bands share the one
    level), (100,200] to MODERATE, and 100 or less to GOOD. *)
Theorem getStatusFromAQI_five_levels (a : Z) :
  (450 < a -> getStatusFromAQI (Int a) = HAZARDOUS)
  /\ (400 < a <= 450 -> getStatusFromAQI (Int a) = SEVERE)
  /\ (200 < a <= 400 -> getStatusFromAQI (Int a) = POOR)
  /\ (100 < a <= 200 -> getStatusFromAQI (Int a) = MODERATE)
  /\ (a <= 100 -> getStatusFromAQI (Int a) = GOOD).
Proof.
  unfold getStatusFromAQI, gt.
  repeat split; intros Ha; split_bins.
Qed.

Lemma getStatusFromAQI_five_levels_witness : getStatusFromAQI (Int 350) = POOR.
Proof.
  apply (proj1 (proj2 (proj2 (getStatusFromAQI_five_levels 350)))). lia.
Defined.

(** C4, as stated, fails: an AQI in (300,400] and one in (200,300] get the
    same level, so "very poor" and "poor" are not distinguishable outputs. *)
Lemma getStatusFromAQI_very_poor_is_poor :
  getStatusFromAQI (Int 350) = POOR
  /\ getStatusFromAQI (Int 250) = POOR
  /\ getStatusFromAQI (Int 350) = getStatusFromAQI (Int 250).
Proof. repeat split. Qed.

(** C6: [getGRAPStage] bins every integer AQI: 450 and above is stage 4,
    401..449 stage 3, 301..400 stage 2, 201..300 stage 1, anything lower
    stage 0, each stage with the label and the description the source gives
    it.  The stage is always one of 0..4, it grows with the AQI, and the
    label and description are determined by the stage. *)
Theorem getGRAPStage_bins (a : Z) :
  (450 <= a ->
   getGRAPStage (Int a)
   = {| stage := 4; label := "GRAP Stage IV";
        description := "Severe+: Truck Entry Ban, Odd-Even Scheme" |})
  /\ (401 <= a < 450 ->
      getGRAPStage (Int a)
      = {| stage := 3; label := "GRAP Stage III";
           description := "Severe: Construction & Demolition Ban" |})
  /\ (301 <= a < 401 ->
      getGRAPStage (Int a)
      = {| stage := 2; label := "GRAP Stage II";
           description := "Very Poor: Diesel Gen Set Ban, Parking Fee Hike" |})
  /\ (201 <= a < 301 ->
      getGRAPStage (Int a)
      = {| stage := 1; label := "GRAP Stage I";
           description := "Poor: Dust Control, Mechanized Sweeping" |})
  /\ (a < 201 ->
      getGRAPStage (Int a)
      = {| stage := 0; label := "No GRAP Active";
           description := "Standard Pollution Control Measures" |})
  /\ 0 <= stage (getGRAPStage (Int a)) <= 4
  /\ (forall b, a <= b ->
        stage (getGRAPStage (Int a)) <= stage (getGRAPStage (Int b)))
  /\ (forall b, stage (getGRAPStage (Int a)) = stage (getGRAPStage (Int b)) ->
        getGRAPStage (Int a) = getGRAPStage (Int b)).
Proof.
  unfold getGRAPStage, ge.
  repeat split; intros; split_bins;
    repeat match goal with
           | H : context [Z.leb ?x ?y] |- _ => destruct (Z.leb_spec x y)
           end;
    simpl in *; try reflexivity; try lia.
Qed.

Lemma getGRAPStage_bins_witness :
  getGRAPStage (Int 301)
  = {| stage := 2; label := "GRAP Stage II";
       description := "Very Poor: Diesel Gen Set Ban, Parking Fee Hike" |}.
Proof.
  apply (proj1 (proj2 (proj2 (getGRAPStage_bins 301)))). lia.
Defined.

Lemma detect_trend_absent (store : Storage) (a : number) :
  store !! LAST_VALID_AQI_KEY = None -> detect_trend store a = stable.
Proof. intros Hnone. unfold detect_trend. rewrite Hnone. reflexivity. Qed.

Lemma detect_trend_previous (store : Storage) (last : string) (a p : Z) :
  store !! LAST_VALID_AQI_KEY = Some last ->
  parseInt last = Int p ->
  detect_trend store (Int a) =
    if 5 <? a - p then worsening
    else if a - p <? -5 then improving
    else stable.
Proof.
  intros Hlast Hp. unfold detect_trend. rewrite Hlast. unfold present.
  destruct (String.eqb_spec last "") as [-> | _].
  - discriminate Hp.
  - rewrite Hp. reflexivity.
Qed.

(** C8: the trend of [calculateIntelligence] is stable when no last valid
    AQI is stored; otherwise, with [delta] the AQI minus the stored one, it is
    worsening for [delta > 5], improving for [delta < -5] and stable in
    between.  On AQI 350 with 300 stored at hour 3 the analysis has trend
    worsening, prediction increasing, exposure 0 minutes, the N95/N99 mask
    mandatory and GRAP stage 2. *)
Theorem calculateIntelligence_trend (store : Storage) (hour a : Z) :
  (store !! LAST_VALID_AQI_KEY = None ->
     trend (calculateIntelligence store hour (Int a)) = stable)
  /\ (forall last p,
        store !! LAST_VALID_AQI_KEY = Some last -> parseInt last = Int p ->
        (a - p > 5 -> trend (calculateIntelligence store hour (Int a)) = worsening)
        /\ (a - p < -5 -> trend (calculateIntelligence store hour (Int a)) = improving)
        /\ (-5 <= a - p <= 5 -> trend (calculateIntelligence store hour (Int a)) = stable))
  /\ (let i := calculateIntelligence {[ LAST_VALID_AQI_KEY := "300" ]} 3 (Int 350) in
      trend i = worsening
      /\ prediction i = increasing
      /\ exposureMinutes i = Minutes 0
      /\ mask (recommendation i) = "N95/N99 Mandatory"
      /\ stage (grap i) = 2).
Proof.
  assert (Htrend : forall i, trend (calculateIntelligence store hour i) = detect_trend store i).
  { intros i. unfold calculateIntelligence.
    destruct (gt i (Int 300)), (gt i (Int 200)), (gt i (Int 150)), (gt i (Int 100));
      reflexivity. }
  split; [| split].
  - intros Hnone. rewrite Htrend. now apply detect_trend_absent.
  - intros last p Hlast Hp. rewrite Htrend, (detect_trend_previous _ _ _ _ Hlast Hp).
    repeat split; intros Hd; split_bins.
  - vm_compute. repeat split.
Qed.

Lemma calculateIntelligence_trend_witness :
  trend (calculateIntelligence {[ LAST_VALID_AQI_KEY := "150" ]} 14 (Int 100)) = improving.
Proof.
  refine (proj1 (proj2 (proj1 (proj2
            (calculateIntelligence_trend {[ LAST_VALID_AQI_KEY := "150" ]} 14 100))
            "150"%string 150 _ _)) _).
  - vm_compute. reflexivity.
  - reflexivity.
  - lia.
Defined.

(** ** Station aggregation *)

(** The filter of step 2 keeps exactly the positive integers. *)
Lemma valid_reading (v : number) :
  negb (isNaN v) && gt v (Int 0) = match v with Int z => 0 <? z | NaN => false end.
Proof. destruct v; reflexivity. Qed.

Lemma Math_max_integers (xs : list Z) (x : Z) :
  exists m, Math_max (Int x) (List.map Int xs) = Int m
            /\ In m (x :: xs)
            /\ forall z, In z (x :: xs) -> z <= m.
Proof.
  unfold Math_max. revert x. induction xs as [|y ys IH]; intros x; simpl.
  - exists x. repeat split; [now left | intros z [-> | []]; lia].
  - destruct (IH (Z.max x y)) as (m & Hm & Hin & Hmax).
    exists m. split; [exact Hm | split].
    + destruct Hin as [Hin | Hin]; [| now right; right].
      destruct (Z.max_spec x y) as [[_ Hxy] | [_ Hxy]]; rewrite Hxy in Hin; auto.
    + intros z [-> | [-> | Hz]].
      * specialize (Hmax (Z.max z y) (or_introl eq_refl)). lia.
      * specialize (Hmax (Z.max x z) (or_introl eq_refl)). lia.
      * apply Hmax. now right.
Qed.

Lemma filter_positive_integers (parsed : list number) :
  exists zs,
    valid_readings parsed = List.map Int zs
    /\ Forall (fun z => 0 < z) zs.
Proof.
  unfold valid_readings.
  induction parsed as [|v vs (zs & Hzs & Hpos)]; simpl.
  - exists []. split; [reflexivity | constructor].
  - destruct v as [|z]; [exists zs; now split |].
    destruct (Z.ltb_spec 0 z).
    + exists (z :: zs). simpl. rewrite Hzs. split; [reflexivity | now constructor].
    + exists zs. now split.
Qed.




(** ** The trend baseline after the write of the last valid AQI *)

Lemma toString_positional_present (n : number) :
  positional n -> present (Some (toString n)) = Some (toString n).
Proof.
  intros Hn. unfold present.
  destruct (String.eqb_spec (toString n) "") as [Hempty | _]; [| reflexivity].
  destruct n as [|z]; [discriminate Hempty |].
  pose proof (parseInt_toString z Hn) as Hback.
  rewrite Hempty in Hback. discriminate Hback.
Qed.

(** Once [setItem] has stored the resolved AQI, the trend computed against
    the store is stable. *)
Lemma detect_trend_after_write (store : Storage) (n : number) :
  positional n ->
  detect_trend (<[LAST_VALID_AQI_KEY := toString n]> store) n = stable.
Proof.
  intros Hn. unfold detect_trend.
  rewrite lookup_insert_eq, (toString_positional_present n Hn).
  destruct n as [|z]; [reflexivity |].
  rewrite (parseInt_toString z Hn). simpl.
  rewrite Z.sub_diag. reflexivity.
Qed.

Lemma calculateIntelligence_trend_eq (store : Storage) (hour : Z) (n : number) :
  trend (calculateIntelligence store hour n) = detect_trend store n.
Proof.
  unfold calculateIntelligence.
  destruct (gt n (Int 300)), (gt n (Int 200)), (gt n (Int 150)), (gt n (Int 100));
    reflexivity.
Qed.

(** What a completed run of the second [try] block returns. *)
Lemma pipeline_returns `{Host} (store store' : Storage) (w : World) (r : LiveAqiData) :
  pipeline store w = Returns (r, store') ->
  exists fetched,
    aqi r = failsafe store fetched
    /\ intelligence r
       = calculateIntelligence (<[LAST_VALID_AQI_KEY := toString (aqi r)]> store)
           (hour w) (aqi r)
    /\ status r = getStatusFromAQI (aqi r)
    /\ store' !! LAST_VALID_AQI_KEY = Some (toString (aqi r)).
Proof.
  unfold pipeline. intros Hrun.
  destruct (bounds_response w) as [json|]; [simpl in Hrun | discriminate].
  destruct (aggregate json) as [aggregated|]; [simpl in Hrun | discriminate].
  destruct (city_feed w aggregated) as [[[fetched dom] cty]|]; [simpl in Hrun | discriminate].
  injection Hrun as <- <-. exists fetched. simpl.
  repeat split.
  rewrite lookup_insert_ne by discriminate. apply lookup_insert_eq.
Qed.

(** C3, as the code has it: when a call misses the fresh live cache and its
    [try] block completes, and the resolved AQI is NaN or of magnitude below
    10^21, the durable slot holds the printed AQI when [calculateIntelligence]
    reads it, and the returned trend is stable. *)
Theorem fresh_resolution_trend_stable `{Host}
    (store store' : Storage) (w : World) (r : LiveAqiData) :
  cache_check store (now w) = None ->
  pipeline store w = Returns (r, store') ->
  positional (aqi r) ->
  fetchLiveCityAQI store w = (Returns (Built r), store')
  /\ store' !! LAST_VALID_AQI_KEY = Some (toString (aqi r))
  /\ trend (intelligence r) = stable.
Proof.
  intros Hmiss Hrun Hpos.
  destruct (pipeline_returns _ _ _ _ Hrun) as (fetched & _ & Hint & _ & Hslot).
  split; [| split].
  - unfold fetchLiveCityAQI. rewrite Hmiss, Hrun. reflexivity.
  - exact Hslot.
  - rewrite Hint, calculateIntelligence_trend_eq.
    now apply detect_trend_after_write.
Qed.

Lemma fresh_resolution_trend_stable_witness :
  exists r store',
    pipeline (H := example_host) ∅
      (world_of (Returns (bounds_of [VStr "412"; VStr "388"])) (Returns refused))
      = Returns (r, store')
    /\ aqi r = Int 412
    /\ trend (intelligence r) = stable.
Proof.
  eexists. eexists.
  split; [vm_compute; reflexivity |].
  split; [reflexivity |].
  refine (proj2 (proj2
            (fresh_resolution_trend_stable (H := example_host) ∅ _
               (world_of (Returns (bounds_of [VStr "412"; VStr "388"])) (Returns refused))
               _ _ _ _))).
  - vm_compute. reflexivity.
  - vm_compute. reflexivity.
  - vm_compute. reflexivity.
Defined.

(** C3, as stated, fails: a station reading of 10^21 is stored as the text
    [1e+21], which [parseInt] reads back as 1, and the trend of that complete,
    uncached run is worsening. *)
Lemma huge_reading_trend_worsening :
  exists r store',
    cache_check (H := example_host) ∅ 1700000000000 = None
    /\ fetchLiveCityAQI (H := example_host) ∅
         (world_of (Returns (bounds_of [VStr "1000000000000000000000"]))
                   (Returns refused))
       = (Returns (Built r), store')
    /\ aqi r = Int (10 ^ 21)
    /\ store' !! LAST_VALID_AQI_KEY = Some "1e+21"
    /\ trend (intelligence r) = worsening.
Proof.
  eexists. eexists.
  split; [vm_compute; reflexivity |].
  split; [vm_compute; reflexivity |].
  repeat split; vm_compute; reflexivity.
Qed.

(** ** Worked runs of [fetchLiveCityAQI] *)

(** Two stations answer: the city AQI is the larger reading. *)
Example run_bounds :
  exists r store',
    fetchLiveCityAQI (H := example_host) ∅
      (world_of (Returns (bounds_of [VStr "412"; VStr "388"])) (Throws NetworkError))
      = (Returns (Built r), store')
    /\ aqi r = Int 412
    /\ status r = SEVERE
    /\ dominant r = VStr "PM2.5"
    /\ city r = VStr "Delhi NCT"
    /\ stage (grap (intelligence r)) = 3
    /\ store' !! LAST_VALID_AQI_KEY = Some "412"
    /\ store' !! CACHE_KEY = Some "{}".
Proof.
  eexists. eexists. split; [vm_compute; reflexivity |].
  repeat split; vm_compute; reflexivity.
Qed.

(** No station is usable: the single feed supplies AQI, pollutant and
    city. *)
Example run_feed :
  exists r store',
    fetchLiveCityAQI (H := example_host) ∅
      (world_of
         (Returns (bounds_of [VStr "-"; VNum (Int 0)]))
         (Returns (VObj [ ("status", VStr "ok");
                          ("data", VObj [ ("aqi", VNum (Int 156));
                                          ("dominentpol", VStr "pm10");
                                          ("city", VObj [ ("name", VStr "Delhi") ]) ]) ])))
      = (Returns (Built r), store')
    /\ aqi r = Int 156
    /\ status r = MODERATE
    /\ dominant r = VStr "pm10"
    /\ city r = VStr "Delhi".
Proof.
  eexists. eexists. split; [vm_compute; reflexivity |].
  repeat split.
Qed.

(** The feed answers ['ok'] without a [city]: the TypeError lands in the
    [catch], which finds no live entry and builds the offline record; its
    trend is taken against the stored 300. *)
Example run_offline :
  exists r,
    fetchLiveCityAQI (H := example_host) {[ LAST_VALID_AQI_KEY := "300" ]}
      (world_of
         (Returns refused)
         (Returns (VObj [ ("status", VStr "ok");
                          ("data", VObj [ ("aqi", VNum (Int 156)) ]) ])))
      = (Returns (Built r), {[ LAST_VALID_AQI_KEY := "300" ]})
    /\ aqi r = Int 345
    /\ status r = SEVERE
    /\ city r = VStr "Delhi (Offline Mode)"
    /\ trend (intelligence r) = worsening.
Proof.
  eexists. split; [vm_compute; reflexivity |].
  repeat split.
Qed.

(** ** Failure paths of [fetchLiveCityAQI] *)

Lemma bind_returns {A B : Type} (a : A) (k : A -> outcome B) :
  bind (Returns a) k = k a.
Proof. reflexivity. Qed.

Lemma aggregate_refused : aggregate refused = Returns (Int 0).
Proof. reflexivity. Qed.

Lemma city_feed_refused (w : World) :
  feed_response w = Returns refused ->
  city_feed w (Int 0) = Returns (Int 0, VStr "PM2.5", VStr "Delhi NCT").
Proof. intros Hfeed. unfold city_feed. simpl. rewrite Hfeed. reflexivity. Qed.

(** With the live slot empty, both endpoints answering a status other than
    ['ok'], and a last-valid slot that [parseInt] cannot read, the failsafe
    takes the unreadable slot for the AQI. *)
Lemma unreadable_last_valid_resolves_NaN `{Host}
    (store : Storage) (w : World) (last : string) :
  store !! CACHE_KEY = None ->
  store !! LAST_VALID_AQI_KEY = Some last ->
  last <> "" ->
  parseInt last = NaN ->
  bounds_response w = Returns refused ->
  feed_response w = Returns refused ->
  exists r store',
    fetchLiveCityAQI store w = (Returns (Built r), store')
    /\ aqi r = NaN
    /\ store' !! LAST_VALID_AQI_KEY = Some "NaN".
Proof.
  intros Hlive Hlast Hne Hnan Hbounds Hfeed.
  assert (Hmiss : cache_check store (now w) = None).
  { unfold cache_check, read_cache. rewrite Hlive. reflexivity. }
  assert (Hsafe : failsafe store (Int 0) = NaN).
  { unfold failsafe, present. simpl. rewrite Hlast.
    destruct (String.eqb_spec last ""); [contradiction | exact Hnan]. }
  unfold fetchLiveCityAQI. rewrite Hmiss.
  unfold pipeline.
  rewrite Hbounds, bind_returns, aggregate_refused, bind_returns.
  rewrite (city_feed_refused w Hfeed), bind_returns. cbv beta iota.
  rewrite Hsafe.
  eexists. eexists. split; [reflexivity |].
  split; [reflexivity |].
  rewrite lookup_insert_ne by discriminate. apply lookup_insert_eq.
Qed.

(** C1, evaluated where it fails: the last-valid slot holds [abc], the live
    slot is empty and both endpoints answer with status [error].  The promise
    resolves to a record whose [aqi] is NaN, and NaN is written back to the
    last-valid slot. *)
Theorem fetchLiveCityAQI_corrupt_last_valid (H : Host) :
  exists r store',
    fetchLiveCityAQI {[ LAST_VALID_AQI_KEY := "abc" ]}
      (world_of (Returns refused) (Returns refused))
      = (Returns (Built r), store')
    /\ aqi r = NaN
    /\ store' !! LAST_VALID_AQI_KEY = Some "NaN".
Proof.
  apply (unreadable_last_valid_resolves_NaN _ _ "abc"); try reflexivity.
  discriminate.
Qed.

(** C2, evaluated where it fails: the live slot holds a text [JSON.parse]
    rejects and the bounds request fails.  The first read is guarded and
    counts as a miss; the read in the [catch] block is not, and the promise
    rejects with the SyntaxError. *)
Theorem fetchLiveCityAQI_corrupt_cache_rejects `{Host}
    (store : Storage) (w : World) (text : string) :
  store !! CACHE_KEY = Some text ->
  text <> "" ->
  JSON_parse text = None ->
  bounds_response w = Throws NetworkError ->
  cache_check store (now w) = None
  /\ fetchLiveCityAQI store w = (Throws SyntaxError, store).
Proof.
  intros Hlive Hne Hparse Hbounds.
  assert (Hpresent : present (store !! CACHE_KEY) = Some text).
  { rewrite Hlive. unfold present.
    destruct (String.eqb_spec text ""); [contradiction | reflexivity]. }
  assert (Hmiss : cache_check store (now w) = None).
  { unfold cache_check, read_cache. rewrite Hpresent, Hparse. reflexivity. }
  split; [exact Hmiss |].
  unfold fetchLiveCityAQI. rewrite Hmiss.
  unfold pipeline. rewrite Hbounds. simpl.
  unfold recover. rewrite Hpresent, Hparse. reflexivity.
Qed.

Lemma fetchLiveCityAQI_corrupt_cache_rejects_witness :
  fetchLiveCityAQI (H := example_host) {[ CACHE_KEY := "{oops" ]}
    (world_of (Throws NetworkError) (Returns refused))
  = (Throws SyntaxError, {[ CACHE_KEY := "{oops" ]}).
Proof.
  refine (proj2 (fetchLiveCityAQI_corrupt_cache_rejects (H := example_host)
                   {[ CACHE_KEY := "{oops" ]}
                   (world_of (Throws NetworkError) (Returns refused))
                   "{oops" _ _ _ _)).
  - vm_compute. reflexivity.
  - discriminate.
  - reflexivity.
  - reflexivity.
Defined.

(** ** Ward interpolation *)

Local Open Scope Q_scope.

Lemma Math_round_integer (x : Q) (a : Z) : x == inject_Z a -> Math_round x = a.
Proof.
  intros Hx. unfold Math_round. rewrite Hx.
  unfold Qfloor, Qplus, inject_Z. simpl.
  rewrite Z.mul_1_r.
  symmetry. apply (Z.div_unique (a * 2 + 1) 2 a 1); lia.
Qed.

Lemma square_nonneg (x : Q) : 0 <= x * x.
Proof. destruct x as [n d]. unfold Qle. simpl. nia. Qed.

Lemma distance2_nonneg (c : Q * Q) (s : Station) : 0 <= distance2 c s.
Proof.
  unfold distance2.
  apply Qle_trans with (0 + 0); [apply Qle_refl |].
  apply Qplus_le_compat; apply square_nonneg.
Qed.

(** The weight of a station is positive whatever its distance. *)
Lemma weight_positive (c : Q * Q) (s : Station) :
  0 < 1 / (distance2 c s + (1 # 100000)).
Proof.
  unfold Qdiv. rewrite Qmult_1_l.
  apply Qinv_lt_0_compat.
  apply Qlt_le_trans with (0 + (1 # 100000)); [reflexivity |].
  apply Qplus_le_compat; [apply distance2_nonneg | apply Qle_refl].
Qed.

(** C10: on no station [interpolateWardAQI] returns the default 150 with the
    nearest source named [Historical Node]; on one station it returns that
    station's AQI and names that station as the nearest, wherever the
    station lies. *)
Theorem interpolateWardAQI_edge_cases (centroid : Q * Q) (s : Station) :
  interpolateWardAQI centroid []
    = {| ward_aqi := 150; nearest := "Historical Node" |}
  /\ interpolateWardAQI centroid [s]
     = {| ward_aqi := station_aqi s; nearest := stationName s |}.
Proof.
  split; [reflexivity |].
  unfold interpolateWardAQI. simpl. f_equal.
  apply Math_round_integer.
  pose proof (weight_positive centroid s) as Hw.
  set (w := 1 / (distance2 centroid s + (1 # 100000))) in *.
  field. intros Hzero. rewrite Hzero in Hw. discriminate Hw.
Qed.

Local Close Scope Q_scope.

(** ** The forecast fallback *)

Lemma risk_bin_level (a : Z) :
  getStatusFromAQI (Int a)
  = match risk_bin a with
    | above_450 => HAZARDOUS
    | above_400 => SEVERE
    | above_300 | above_200 => POOR
    | above_100 => MODERATE
    | at_most_100 => GOOD
    end.
Proof. unfold getStatusFromAQI, risk_bin, gt. split_bins. Qed.

Lemma project_fields `{Host} (currentAqi trendSlope : Q) (h : Z) :
  let p := Forecast.project currentAqi trendSlope h in
  Forecast.aqi p
    = Z.max 0 (Math_round (currentAqi + trendSlope * inject_Z (Forecast.hours p)))
  /\ Forecast.confidence p = 65
  /\ Forecast.riskLevel p = fallback_class (risk_bin (Forecast.aqi p))
  /\ Forecast.riskLevel p
     = (if 300 <? Forecast.aqi p then "Extreme"
        else if 200 <? Forecast.aqi p then "High" else "Medium").
Proof.
  simpl. repeat split.
  unfold risk_bin.
  set (predicted := Z.max 0 (Math_round (currentAqi + trendSlope * inject_Z h))).
  split_bins.
Qed.

(** C5: when the cache holds no fresh entry for the key and the model call
    fails, [getAqiForecast] returns three predictions, for 24, 48 and 72
    hours, each with AQI [max(0, round(currentAqi + slope * hours))],
    confidence 65, and a risk class that depends only on the risk-level bin
    of the predicted AQI (cuts 450, 400, 300, 200, 100): Extreme above 300,
    High above 200, Medium otherwise.  The cache is left as it was. *)
Theorem getAqiForecast_fallback `{Host}
    (cache : Forecast.ForecastCache) (now : Z) (currentAqi trendSlope : Q) :
  (forall entry,
     cache !! Forecast.cacheKey currentAqi trendSlope = Some entry ->
     Forecast.FORECAST_CACHE_TTL <= now - Forecast.timestamp entry) ->
  exists p24 p48 p72,
    Forecast.getAqiForecast cache now None currentAqi trendSlope
      = ([p24; p48; p72], cache)
    /\ Forecast.hours p24 = 24 /\ Forecast.hours p48 = 48 /\ Forecast.hours p72 = 72
    /\ Forall (fun p =>
                 Forecast.aqi p
                   = Z.max 0 (Math_round (currentAqi + trendSlope * inject_Z (Forecast.hours p)))
                 /\ Forecast.confidence p = 65
                 /\ Forecast.riskLevel p = fallback_class (risk_bin (Forecast.aqi p))
                 /\ Forecast.riskLevel p
                    = (if 300 <? Forecast.aqi p then "Extreme"
                       else if 200 <? Forecast.aqi p then "High" else "Medium"))
         [p24; p48; p72].
Proof.
  intros Hstale.
  exists (Forecast.project currentAqi trendSlope 24),
         (Forecast.project currentAqi trendSlope 48),
         (Forecast.project currentAqi trendSlope 72).
  split.
  - unfold Forecast.getAqiForecast.
    destruct (cache !! Forecast.cacheKey currentAqi trendSlope) as [entry|] eqn:Hentry;
      [| reflexivity].
    specialize (Hstale entry eq_refl).
    destruct (Z.ltb_spec (now - Forecast.timestamp entry) Forecast.FORECAST_CACHE_TTL);
      [lia | reflexivity].
  - do 3 (split; [reflexivity |]).
    repeat (constructor; [apply project_fields |]).
    constructor.
Qed.

Lemma getAqiForecast_fallback_witness :
  List.map Forecast.aqi
    (fst (Forecast.getAqiForecast (H := example_host) ∅ 1700000000000 None 290 (1 # 2)))
  = [302; 314; 326].
Proof.
  destruct (getAqiForecast_fallback (H := example_host) ∅ 1700000000000 290 (1 # 2))
    as (p24 & p48 & p72 & Hrun & H24 & H48 & H72 & Hall).
  - intros entry Hentry. discriminate Hentry.
  - rewrite Hrun.
    destruct (List.Forall_inv Hall) as (A24 & _).
    destruct (List.Forall_inv (List.Forall_inv_tail Hall)) as (A48 & _).
    destruct (List.Forall_inv (List.Forall_inv_tail (List.Forall_inv_tail Hall)))
      as (A72 & _).
    cbn [fst List.map].
    rewrite A24, A48, A72, H24, H48, H72. reflexivity.
Defined.


(** ** The trend slope *)

Local Open Scope Q_scope.

Lemma sigma_S (n : nat) (f : nat -> Q) :
  sigma (S n) f = f 0%nat + sigma n (fun k => f (S k)).
Proof. unfold sigma. simpl. rewrite <- seq_shift, List.map_map. reflexivity. Qed.

Lemma sigma_ext (n : nat) (f g : nat -> Q) :
  (forall k, f k == g k) -> sigma n f == sigma n g.
Proof.
  intros Hfg. unfold sigma.
  induction (seq 0 n) as [|k ks IH]; simpl; [reflexivity |].
  rewrite (Hfg k), IH. reflexivity.
Qed.

Lemma index_shift (i : Z) (k : nat) :
  inject_Z (i + Z.of_nat (S k)) = inject_Z (i + 1 + Z.of_nat k).
Proof. f_equal. lia. Qed.

(** The loop adds to each running sum the sum over the indices it visits. *)
Lemma accumulate_sums (history : list HistoryPoint) (i : Z) (s : Sums) :
  sumX (accumulate i history s)
    == sumX s + sigma (List.length history) (fun k => inject_Z (i + Z.of_nat k))
  /\ sumY (accumulate i history s)
    == sumY s + sigma (List.length history) (series history)
  /\ sumXY (accumulate i history s)
    == sumXY s + sigma (List.length history)
                   (fun k => inject_Z (i + Z.of_nat k) * series history k)
  /\ sumX2 (accumulate i history s)
    == sumX2 s + sigma (List.length history)
                   (fun k => inject_Z (i + Z.of_nat k) * inject_Z (i + Z.of_nat k)).
Proof.
  revert i s. induction history as [|p rest IH]; intros i s.
  - simpl. unfold sigma. simpl. repeat split; ring.
  - cbn [accumulate List.length].
    destruct (IH (i + 1)%Z
                {| sumX := sumX s + inject_Z i; sumY := sumY s + point_aqi p;
                   sumXY := sumXY s + inject_Z i * point_aqi p;
                   sumX2 := sumX2 s + inject_Z i * inject_Z i |})
      as (HX & HY & HXY & HX2).
    cbn [sumX sumY sumXY sumX2] in HX, HY, HXY, HX2.
    rewrite !sigma_S, Z.add_0_r.
    change (series (p :: rest) 0) with (point_aqi p).
    repeat split.
    + rewrite HX.
      rewrite (sigma_ext _ (fun k => inject_Z (i + Z.of_nat (S k)))
                 (fun k => inject_Z (i + 1 + Z.of_nat k)))
        by (intros k; rewrite index_shift; reflexivity).
      ring.
    + rewrite HY.
      change (fun k => series (p :: rest) (S k)) with (series rest). ring.
    + rewrite HXY.
      rewrite (sigma_ext _ (fun k => inject_Z (i + Z.of_nat (S k)) * series (p :: rest) (S k))
                 (fun k => inject_Z (i + 1 + Z.of_nat k) * series rest k))
        by (intros k; rewrite index_shift; reflexivity).
      ring.
    + rewrite HX2.
      rewrite (sigma_ext _ (fun k => inject_Z (i + Z.of_nat (S k)) * inject_Z (i + Z.of_nat (S k)))
                 (fun k => inject_Z (i + 1 + Z.of_nat k) * inject_Z (i + 1 + Z.of_nat k)))
        by (intros k; rewrite index_shift; reflexivity).
      ring.
Qed.

(** The two quantities the function divides are those of the formula. *)
Lemma slope_terms (history : list HistoryPoint) :
  let n := List.length history in
  let s := accumulate 0 history {| sumX := 0; sumY := 0; sumXY := 0; sumX2 := 0 |} in
  inject_Z (Z.of_nat n) * sumXY s - sumX s * sumY s == ols_numerator (series history) n
  /\ inject_Z (Z.of_nat n) * sumX2 s - sumX s * sumX s == ols_denominator n.
Proof.
  cbv zeta.
  destruct (accumulate_sums history 0
              {| sumX := 0; sumY := 0; sumXY := 0; sumX2 := 0 |})
    as (HX & HY & HXY & HX2).
  cbn [sumX sumY sumXY sumX2] in HX, HY, HXY, HX2.
  change (fun k : nat => inject_Z (0 + Z.of_nat k))
    with (fun k : nat => inject_Z (Z.of_nat k)) in HX.
  change (fun k : nat => inject_Z (0 + Z.of_nat k) * series history k)
    with (fun k : nat => inject_Z (Z.of_nat k) * series history k) in HXY.
  change (fun k : nat => inject_Z (0 + Z.of_nat k) * inject_Z (0 + Z.of_nat k))
    with (fun k : nat => inject_Z (Z.of_nat k) * inject_Z (Z.of_nat k)) in HX2.
  unfold ols_numerator, ols_denominator.
  rewrite HX, HY, HXY, HX2. split; ring.
Qed.

Lemma slope_is_quotient (history : list HistoryPoint) :
  (2 <= List.length history)%nat ->
  ~ ols_denominator (List.length history) == 0 ->
  calculateTrendSlope history == ols_slope (series history) (List.length history).
Proof.
  intros Hlong Hnonzero.
  destruct (slope_terms history) as (Hnum & Hden). cbv zeta in Hnum, Hden.
  unfold calculateTrendSlope.
  destruct (Z.ltb_spec (Z.of_nat (List.length history)) 2); [lia |].
  destruct (Qeq_bool _ 0) eqn:Hguard.
  - apply Qeq_bool_iff in Hguard. rewrite Hden in Hguard. contradiction.
  - unfold ols_slope. rewrite Hnum, Hden. reflexivity.
Qed.

(** C9: [calculateTrendSlope] returns 0 on fewer than two points and when
    the denominator [n * sum x^2 - (sum x)^2] is 0; otherwise it returns the
    least-squares slope [(n * sum xy - sum x * sum y) / (n * sum x^2 -
    (sum x)^2)] over [x = 0..n-1] and [y] the AQI values of the series.  On
    the series 100, 110, 120 it returns 10. *)
Theorem calculateTrendSlope_ols (history : list HistoryPoint) :
  ((List.length history < 2)%nat -> calculateTrendSlope history = 0)
  /\ (ols_denominator (List.length history) == 0 -> calculateTrendSlope history = 0)
  /\ ((2 <= List.length history)%nat ->
      ~ ols_denominator (List.length history) == 0 ->
      calculateTrendSlope history == ols_slope (series history) (List.length history))
  /\ calculateTrendSlope
       [ {| point_aqi := 100 |}; {| point_aqi := 110 |}; {| point_aqi := 120 |} ] == 10.
Proof.
  destruct (slope_terms history) as (Hnum & Hden). cbv zeta in Hnum, Hden.
  unfold calculateTrendSlope.
  split; [| split; [| split]].
  - intros Hshort.
    destruct (Z.ltb_spec (Z.of_nat (List.length history)) 2); [reflexivity | lia].
  - intros Hzero.
    destruct (Z.of_nat (List.length history) <? 2)%Z; [reflexivity |].
    rewrite <- Hden in Hzero. apply Qeq_bool_iff in Hzero. rewrite Hzero. reflexivity.
  - fold (calculateTrendSlope history). apply slope_is_quotient.
  - vm_compute. reflexivity.
Qed.

Lemma calculateTrendSlope_ols_witness :
  calculateTrendSlope
    [ {| point_aqi := 100 |}; {| point_aqi := 110 |}; {| point_aqi := 120 |} ]
  == ols_slope
       (series [ {| point_aqi := 100 |}; {| point_aqi := 110 |}; {| point_aqi := 120 |} ])
       3.
Proof.
  refine (proj1 (proj2 (proj2
            (calculateTrendSlope_ols
               [ {| point_aqi := 100 |}; {| point_aqi := 110 |}; {| point_aqi := 120 |} ])))
            _ _).
  - simpl. lia.
  - vm_compute. discriminate.
Defined.

(** *** The denominator never vanishes *)

Ltac regroup lhs rhs :=
  let E := fresh "E" in
  assert (E : lhs == rhs) by ring; rewrite E; clear E.

Lemma fold_sum_last (l : list Q) (x : Q) :
  fold_right Qplus 0 (l ++ [x]) == fold_right Qplus 0 l + x.
Proof.
  induction l as [|y l IH]; simpl; [ring |]. rewrite IH. ring.
Qed.

Lemma sigma_last (n : nat) (f : nat -> Q) : sigma (S n) f == sigma n f + f n.
Proof.
  unfold sigma. rewrite seq_S, List.map_app. simpl. apply fold_sum_last.
Qed.

Lemma inject_succ (n : nat) : inject_Z (Z.of_nat (S n)) == inject_Z (Z.of_nat n) + 1.
Proof. rewrite Nat2Z.inj_succ. unfold Z.succ. rewrite inject_Z_plus. reflexivity. Qed.

(** [2 * (0 + 1 + ... + (n-1)) = n (n-1)] *)
Lemma sum_of_indices (n : nat) :
  2 * sigma n (fun x => inject_Z (Z.of_nat x))
  == inject_Z (Z.of_nat n) * (inject_Z (Z.of_nat n) - 1).
Proof.
  induction n as [|n IH].
  - reflexivity.
  - rewrite sigma_last, inject_succ.
    regroup (2 * (sigma n (fun x => inject_Z (Z.of_nat x)) + inject_Z (Z.of_nat n)))
      (2 * sigma n (fun x => inject_Z (Z.of_nat x)) + 2 * inject_Z (Z.of_nat n)).
    rewrite IH. ring.
Qed.

(** [6 * (0^2 + 1^2 + ... + (n-1)^2) = (n-1) n (2n-1)] *)
Lemma sum_of_squares (n : nat) :
  6 * sigma n (fun x => inject_Z (Z.of_nat x) * inject_Z (Z.of_nat x))
  == (inject_Z (Z.of_nat n) - 1) * inject_Z (Z.of_nat n)
     * (2 * inject_Z (Z.of_nat n) - 1).
Proof.
  induction n as [|n IH].
  - reflexivity.
  - rewrite sigma_last, inject_succ.
    regroup (6 * (sigma n (fun x => inject_Z (Z.of_nat x) * inject_Z (Z.of_nat x))
            + inject_Z (Z.of_nat n) * inject_Z (Z.of_nat n)))
      (6 * sigma n (fun x => inject_Z (Z.of_nat x) * inject_Z (Z.of_nat x))
            + 6 * (inject_Z (Z.of_nat n) * inject_Z (Z.of_nat n))).
    rewrite IH. ring.
Qed.

(** [12 * (n * sum x^2 - (sum x)^2) = n^2 (n-1) (n+1)] *)
Lemma ols_denominator_closed (n : nat) :
  12 * ols_denominator n
  == inject_Z (Z.of_nat n * Z.of_nat n * (Z.of_nat n - 1) * (Z.of_nat n + 1)).
Proof.
  unfold ols_denominator.
  set (q := inject_Z (Z.of_nat n)).
  set (s1 := sigma n (fun x => inject_Z (Z.of_nat x))).
  set (s2 := sigma n (fun x => inject_Z (Z.of_nat x) * inject_Z (Z.of_nat x))).
  regroup (12 * (q * s2 - s1 * s1))
      (2 * q * (6 * s2) - 3 * ((2 * s1) * (2 * s1))).
  unfold s1, s2. rewrite sum_of_indices, sum_of_squares. fold q.
  rewrite !inject_Z_mult, inject_Z_plus.
  unfold Z.sub. rewrite inject_Z_plus. fold q.
  change (inject_Z (- (1))%Z) with (- (1 # 1)).
  ring.
Qed.

Lemma ols_denominator_nonzero (n : nat) :
  (2 <= n)%nat -> ~ ols_denominator n == 0.
Proof.
  intros Hn Hzero.
  pose proof (ols_denominator_closed n) as Hclosed.
  rewrite Hzero in Hclosed.
  unfold Qeq in Hclosed. simpl in Hclosed.
  nia.
Qed.

Lemma ols_denominator_positive (n : nat) :
  (2 <= n)%nat -> 0 < ols_denominator n.
Proof.
  intros Hn.
  pose proof (ols_denominator_closed n) as Hclosed.
  assert (Hpos : 0 < 12 * ols_denominator n).
  { rewrite Hclosed. change 0 with (inject_Z 0). rewrite <- Zlt_Qlt. nia. }
  lra.
Qed.

(** X2: on two points or more the denominator the loop leaves,
    [n * sumX2 - sumX * sumX], is positive, so the zero-denominator guard is
    never taken: the result is the quotient of the loop's two quantities by
    a non-zero denominator, the least-squares slope. *)
Theorem calculateTrendSlope_two_points (history : list HistoryPoint) :
  (2 <= List.length history)%nat ->
  let n := inject_Z (Z.of_nat (List.length history)) in
  let s := accumulate 0 history {| sumX := 0; sumY := 0; sumXY := 0; sumX2 := 0 |} in
  0 < n * sumX2 s - sumX s * sumX s
  /\ Qeq_bool (n * sumX2 s - sumX s * sumX s) 0 = false
  /\ calculateTrendSlope history
     == (n * sumXY s - sumX s * sumY s) / (n * sumX2 s - sumX s * sumX s)
  /\ calculateTrendSlope history == ols_slope (series history) (List.length history).
Proof.
  intros Hlong n s.
  destruct (slope_terms history) as (_ & Hden). cbv zeta in Hden.
  fold n s in Hden.
  pose proof (ols_denominator_positive _ Hlong) as Hpos.
  rewrite <- Hden in Hpos.
  assert (Hguard : Qeq_bool (n * sumX2 s - sumX s * sumX s) 0 = false).
  { destruct (Qeq_bool _ 0) eqn:Heq; [| reflexivity].
    apply Qeq_bool_iff in Heq. rewrite Heq in Hpos. discriminate Hpos. }
  split; [exact Hpos | split; [exact Hguard | split]].
  - unfold calculateTrendSlope.
    destruct (Z.ltb_spec (Z.of_nat (List.length history)) 2); [lia |].
    fold n s. rewrite Hguard. reflexivity.
  - apply slope_is_quotient; [exact Hlong |].
    now apply ols_denominator_nonzero.
Qed.

Lemma calculateTrendSlope_two_points_witness :
  calculateTrendSlope [ {| point_aqi := 180 |}; {| point_aqi := 150 |} ]
  == ols_slope (series [ {| point_aqi := 180 |}; {| point_aqi := 150 |} ]) 2.
Proof.
  apply (calculateTrendSlope_two_points
           [ {| point_aqi := 180 |}; {| point_aqi := 150 |} ]).
  simpl. lia.
Defined.

Local Close Scope Q_scope.

(** ** Further properties of the pipeline *)

Lemma validStations_integers (data : list value) (valid : list number) :
  validStations data = Returns valid ->
  exists zs, valid = List.map Int zs /\ Forall (fun z => 0 < z) zs.
Proof.
  unfold validStations. intros Hvalid.
  destruct (map_outcome _ data) as [parsed|]; [| discriminate].
  simpl in Hvalid. injection Hvalid as <-.
  destruct (filter_positive_integers parsed) as (zs & Hzs & Hpos).
  exists zs. split; [| exact Hpos].
  rewrite <- Hzs. unfold valid_readings.
  apply filter_ext. intros v. apply valid_reading.
Qed.

(** *** Short readings are safe integers *)

Lemma digit_value_range (hex : bool) (c : ascii) (d : Z) :
  digit_value hex c = Some d -> 0 <= d < (if hex then 16 else 10).
Proof.
  unfold digit_value. set (k := Z.of_nat (nat_of_ascii c)).
  destruct (Z.leb_spec 48 k), (Z.leb_spec k 57); simpl;
    try (intros [= <-]; destruct hex; lia);
    destruct hex; simpl; try discriminate;
    destruct (Z.leb_spec 97 k), (Z.leb_spec k 102); simpl;
    try (intros [= <-]; lia);
    destruct (Z.leb_spec 65 k), (Z.leb_spec k 70); simpl;
    try (intros [= <-]; lia); discriminate.
Qed.

Lemma radix_power_positive (hex : bool) (n : nat) :
  1 <= (if hex then 16 else 10) ^ Z.of_nat n.
Proof.
  assert (H : 0 < (if hex then 16 else 10) ^ Z.of_nat n)
    by (apply Z.pow_pos_nonneg; [destruct hex |]; lia).
  lia.
Qed.

Lemma radix_power_succ (hex : bool) (n : nat) :
  (if hex then 16 else 10) ^ Z.of_nat (S n)
  = (if hex then 16 else 10) * (if hex then 16 else 10) ^ Z.of_nat n.
Proof. rewrite Nat2Z.inj_succ. apply Z.pow_succ_r. lia. Qed.

(** [read_digits] on [k] characters multiplies what it has read by at most
    [radix ^ k]. *)
Lemma read_digits_bound (hex : bool) (s : string) (a m : Z) :
  0 <= a ->
  read_digits hex s (Some a) = Some m ->
  0 <= m < (a + 1) * (if hex then 16 else 10) ^ Z.of_nat (String.length s).
Proof.
  revert a. induction s as [|c rest IH]; intros a Ha Hread.
  - injection Hread as <-. simpl. lia.
  - cbn [read_digits] in Hread. cbn [String.length].
    rewrite radix_power_succ.
    pose proof (radix_power_positive hex (String.length rest)) as Hpow.
    destruct (digit_value hex c) as [d|] eqn:Hd.
    + apply digit_value_range in Hd.
      assert (Hacc : 0 <= a * (if hex then 16 else 10) + d) by (destruct hex; lia).
      specialize (IH _ Hacc Hread).
      destruct hex; nia.
    + injection Hread as <-. destruct hex; nia.
Qed.

Lemma read_digits_below (hex : bool) (s : string) (m : Z) :
  read_digits hex s None = Some m ->
  0 <= m < (if hex then 16 else 10) ^ Z.of_nat (String.length s).
Proof.
  destruct s as [|c rest]; [discriminate |].
  cbn [read_digits String.length]. rewrite radix_power_succ.
  destruct (digit_value hex c) as [d|] eqn:Hd; [| discriminate].
  apply digit_value_range in Hd. intros Hread.
  assert (Hacc : 0 <= d) by lia.
  pose proof (read_digits_bound hex rest d m Hacc Hread) as Hm.
  pose proof (radix_power_positive hex (String.length rest)) as Hpow.
  destruct hex; nia.
Qed.

Lemma skip_white_length (s : string) :
  (String.length (skip_white s) <= String.length s)%nat.
Proof.
  induction s as [|c rest IH]; simpl; [lia |].
  destruct (is_white c); simpl; lia.
Qed.

Lemma split_sign_length (s : string) :
  (String.length (snd (split_sign s)) <= String.length s)%nat.
Proof.
  destruct s as [|c rest]; [simpl; lia |].
  destruct c as [[] [] [] [] [] [] [] []]; simpl; lia.
Qed.

(** The prefix [0x] costs two characters. *)
Lemma split_radix_length (s : string) :
  (fst (split_radix s) = true
   /\ String.length s = S (S (String.length (snd (split_radix s)))))
  \/ split_radix s = (false, s).
Proof.
  destruct s as [|c s]; [right; reflexivity |].
  destruct c as [[] [] [] [] [] [] [] []]; try (right; reflexivity).
  destruct s as [|c s]; [right; reflexivity |].
  destruct c as [[] [] [] [] [] [] [] []]; try (right; reflexivity);
    left; split; reflexivity.
Qed.

(** Of a text of at most 15 characters [parseInt] makes NaN or a safe
    integer. *)
Lemma parseInt_short (s : string) :
  (String.length s <= 15)%nat -> safe (parseInt s).
Proof.
  intros Hlen. unfold parseInt.
  pose proof (skip_white_length s) as Hwhite.
  pose proof (split_sign_length (skip_white s)) as Hsign.
  destruct (split_sign (skip_white s)) as [negative s1]. cbn [snd] in Hsign.
  pose proof (split_radix_length s1) as Hradix.
  destruct (split_radix s1) as [hex s2]. cbn [fst snd] in Hradix.
  destruct (read_digits hex s2 None) as [m|] eqn:Hread; [| exact I].
  apply read_digits_below in Hread.
  assert (Hpow : (if hex then 16 else 10) ^ Z.of_nat (String.length s2) < 2 ^ 53).
  { destruct Hradix as [(-> & Hs1) | [= -> ->]].
    - apply Z.le_lt_trans with (16 ^ 13); [| reflexivity].
      apply Z.pow_le_mono_r; lia.
    - apply Z.le_lt_trans with (10 ^ 15); [| reflexivity].
      apply Z.pow_le_mono_r; lia. }
  unfold safe. destruct negative; lia.
Qed.

Lemma short_reading_safe (a : value) :
  short_reading a = true -> safe (parseInt (ToString a)).
Proof.
  unfold short_reading. intros Hshort.
  apply parseInt_short. apply Nat.leb_le. exact Hshort.
Qed.

Lemma map_outcome_In {A B : Type} (f : A -> outcome B) (l : list A) (l' : list B) (y : B) :
  map_outcome f l = Returns l' ->
  In y l' -> exists x, In x l /\ f x = Returns y.
Proof.
  revert l'. induction l as [|x rest IH]; intros l' Hmap Hy.
  - injection Hmap as <-. contradiction.
  - cbn [map_outcome] in Hmap.
    destruct (f x) as [y0|] eqn:Hx; [| discriminate].
    rewrite bind_returns in Hmap.
    destruct (map_outcome f rest) as [ys|]; [| discriminate].
    rewrite bind_returns in Hmap. injection Hmap as <-.
    destruct Hy as [<- | Hy].
    + exists x. split; [now left | exact Hx].
    + destruct (IH ys eq_refl Hy) as (x' & Hin & Hx').
      exists x'. split; [now right | exact Hx'].
Qed.

Lemma validStations_safe (data : list value) (valid : list number) :
  validStations data = Returns valid ->
  forallb (fun s => match get s "aqi" with
                    | Returns a => short_reading a
                    | Throws _ => true
                    end) data = true ->
  Forall safe valid.
Proof.
  unfold validStations. intros Hvalid Hshort.
  destruct (map_outcome _ data) as [parsed|] eqn:Hmap; [| discriminate].
  simpl in Hvalid. injection Hvalid as <-.
  apply List.Forall_forall. intros v Hv.
  apply filter_In in Hv as (Hv & _).
  destruct (map_outcome_In _ _ _ _ Hmap Hv) as (s & Hs & Hread).
  rewrite forallb_forall in Hshort. specialize (Hshort s Hs).
  destruct (get s "aqi") as [a|]; [| discriminate].
  rewrite bind_returns in Hread. injection Hread as <-.
  now apply short_reading_safe.
Qed.

(** On short readings the aggregation leaves 0 or a positive safe
    integer. *)
Lemma aggregate_safe (json : value) (n : number) :
  short_stations (Returns json) = true ->
  aggregate json = Returns n -> exists z, n = Int z /\ 0 <= z < 2 ^ 53.
Proof.
  unfold aggregate, short_stations. intros Hshort Hagg.
  destruct (get json "status") as [st|]; [| discriminate]. simpl in Hagg.
  assert (Hzero : Returns (Int 0) = Returns n ->
                  exists z, n = Int z /\ 0 <= z < 2 ^ 53).
  { intros [= <-]. exists 0. split; [reflexivity | split; [lia | reflexivity]]. }
  destruct (is_string st "ok"); [| apply Hzero; exact Hagg].
  destruct (get json "data") as [data|]; [| discriminate]. simpl in Hagg.
  destruct data as [| | | | | [|s rest] |]; try (apply Hzero; exact Hagg).
  destruct (validStations (s :: rest)) as [valid|] eqn:Hvalid; [| discriminate].
  simpl in Hagg.
  pose proof (validStations_safe _ _ Hvalid Hshort) as Hsafe.
  destruct (validStations_integers _ _ Hvalid) as (zs & -> & Hpos).
  destruct zs as [|z zs]; [apply Hzero; exact Hagg |].
  simpl in Hagg.
  destruct (Math_max_integers zs z) as (m & Hm & Hin & _).
  rewrite Hm in Hagg. injection Hagg as <-.
  exists m. split; [reflexivity |].
  rewrite List.Forall_forall in Hpos, Hsafe. specialize (Hpos m Hin).
  specialize (Hsafe (Int m) (in_map Int _ _ Hin)). unfold safe in Hsafe. lia.
Qed.

Lemma city_feed_safe (w : World) (current fetched : number) (dom cty : value) :
  short_feed (feed_response w) = true ->
  safe current ->
  city_feed w current = Returns (fetched, dom, cty) ->
  safe fetched.
Proof.
  unfold city_feed, short_feed. intros Hshort Hcur Hfeed.
  destruct (strict_eq current (Int 0)); [| injection Hfeed as <- _ _; exact Hcur].
  destruct (feed_response w) as [feed|]; [| discriminate].
  rewrite bind_returns in Hfeed.
  destruct (get feed "status") as [st|]; [| discriminate].
  rewrite bind_returns in Hfeed.
  destruct (is_string st "ok"); [| injection Hfeed as <- _ _; exact Hcur].
  destruct (get feed "data") as [data|]; [| discriminate].
  rewrite bind_returns in Hfeed.
  destruct (get data "aqi") as [a|]; [| discriminate].
  rewrite bind_returns in Hfeed.
  destruct (get data "dominentpol") as [pol|]; [| discriminate].
  rewrite bind_returns in Hfeed.
  destruct (get data "city") as [c|]; [| discriminate].
  rewrite bind_returns in Hfeed.
  destruct (get c "name") as [name|]; [| discriminate].
  rewrite bind_returns in Hfeed.
  injection Hfeed as <- _ _. now apply short_reading_safe.
Qed.

(** The failsafe turns a safe reading into a positive safe integer when the
    slot is sane. *)
Lemma failsafe_positive (store : Storage) (fetched : number) :
  sane_slot (store !! LAST_VALID_AQI_KEY) ->
  safe fetched ->
  exists z, failsafe store fetched = Int z /\ 0 < z < 2 ^ 53.
Proof.
  unfold sane_slot, failsafe, safe. intros Hsane Hsafe.
  assert (Hslot : exists z,
            match present (store !! LAST_VALID_AQI_KEY) with
            | Some last => parseInt last
            | None => Int 345
            end = Int z /\ 0 < z < 2 ^ 53).
  { destruct (present (store !! LAST_VALID_AQI_KEY)) as [last|].
    - exact Hsane.
    - exists 345. split; [reflexivity | split; reflexivity]. }
  destruct fetched as [|f]; simpl; [exact Hslot |].
  destruct (Z.leb_spec f 0); [exact Hslot |].
  exists f. split; [reflexivity | lia].
Qed.

(** A completed run on short readings and a sane slot resolves to a
    positive safe integer. *)
Lemma pipeline_positive `{Host} (store store' : Storage) (w : World) (r : LiveAqiData) :
  short_readings w = true ->
  sane_slot (store !! LAST_VALID_AQI_KEY) ->
  pipeline store w = Returns (r, store') ->
  exists z, aqi r = Int z /\ 0 < z < 2 ^ 53.
Proof.
  unfold short_readings. intros Hshort Hsane Hrun.
  apply andb_true_iff in Hshort as (Hstations & Hfeed).
  unfold pipeline in Hrun.
  destruct (bounds_response w) as [json|]; [simpl in Hrun | discriminate].
  destruct (aggregate json) as [aggregated|] eqn:Hagg; [simpl in Hrun | discriminate].
  destruct (city_feed w aggregated) as [[[fetched dom] cty]|] eqn:Hfed;
    [simpl in Hrun | discriminate].
  injection Hrun as <- _. cbn [aqi].
  apply failsafe_positive; [exact Hsane |].
  apply (city_feed_safe w aggregated fetched dom cty Hfeed); [| exact Hfed].
  destruct (aggregate_safe json aggregated Hstations Hagg) as (z & -> & Hz).
  unfold safe. lia.
Qed.

(** What a call on short readings and a sane slot resolves to when it
    builds the record itself. *)
Lemma built_record_positive `{Host} (store store' : Storage) (w : World) (r : LiveAqiData) :
  short_readings w = true ->
  sane_slot (store !! LAST_VALID_AQI_KEY) ->
  fetchLiveCityAQI store w = (Returns (Built r), store') ->
  exists z, aqi r = Int z /\ 0 < z < 2 ^ 53.
Proof.
  intros Hshort Hsane. unfold fetchLiveCityAQI.
  destruct (cache_check store (now w)); [discriminate |].
  destruct (pipeline store w) as [[r' store'']|] eqn:Hrun.
  - intros [= <- <-]. exact (pipeline_positive _ _ _ _ Hshort Hsane Hrun).
  - unfold recover.
    destruct (present (store !! CACHE_KEY)) as [cached|].
    + destruct (JSON_parse cached) as [parsed|]; [| discriminate].
      rewrite bind_returns.
      destruct (get parsed "data"); discriminate.
    + intros [= <- _]. exists 345. split; [reflexivity | split; reflexivity].
Qed.

(** X1: with no live entry stored, a last-valid slot that is empty or holds
    a positive safe integer, and readings of at most 15 characters,
    [fetchLiveCityAQI] resolves, whatever else the two endpoints do, to a
    freshly built record whose AQI is a positive integer below 2^53. *)
Theorem fetchLiveCityAQI_positive `{Host} (store : Storage) (w : World) :
  store !! CACHE_KEY = None ->
  sane_slot (store !! LAST_VALID_AQI_KEY) ->
  short_readings w = true ->
  exists r store' z,
    fetchLiveCityAQI store w = (Returns (Built r), store')
    /\ aqi r = Int z /\ 0 < z < 2 ^ 53.
Proof.
  intros Hlive Hsane Hshort.
  assert (Hcall : exists r store', fetchLiveCityAQI store w = (Returns (Built r), store')).
  { unfold fetchLiveCityAQI, cache_check, read_cache. rewrite Hlive. simpl.
    destruct (pipeline store w) as [[r store']|].
    - exists r, store'. reflexivity.
    - unfold recover. rewrite Hlive. simpl. eexists. eexists. reflexivity. }
  destruct Hcall as (r & store' & Hcall).
  destruct (built_record_positive _ _ _ _ Hshort Hsane Hcall) as (z & Hz).
  exists r, store', z. split; [exact Hcall | exact Hz].
Qed.

Lemma fetchLiveCityAQI_positive_witness :
  exists r store' z,
    fetchLiveCityAQI (H := example_host) {[ LAST_VALID_AQI_KEY := "287" ]}
      (world_of (Throws NetworkError) (Throws NetworkError))
      = (Returns (Built r), store')
    /\ aqi r = Int z /\ 0 < z < 2 ^ 53.
Proof.
  apply (fetchLiveCityAQI_positive (H := example_host)).
  - reflexivity.
  - exists 287. split; [reflexivity | split; reflexivity].
  - reflexivity.
Defined.

(** X3: when the aggregation finds a positive maximum, that maximum is the AQI
    of the record the run builds; the feed is not asked and the failsafe
    leaves it alone. *)
Theorem pipeline_reports_maximum `{Host}
    (store : Storage) (w : World) (json : value) (m : Z) :
  bounds_response w = Returns json ->
  aggregate json = Returns (Int m) ->
  0 < m ->
  exists r store',
    pipeline store w = Returns (r, store')
    /\ aqi r = Int m
    /\ status r = getStatusFromAQI (Int m)
    /\ dominant r = VStr "PM2.5"
    /\ city r = VStr "Delhi NCT".
Proof.
  intros Hbounds Hagg Hpos.
  unfold pipeline. rewrite Hbounds, bind_returns, Hagg, bind_returns.
  assert (Hfeed : city_feed w (Int m) = Returns (Int m, VStr "PM2.5", VStr "Delhi NCT")).
  { unfold city_feed. simpl. destruct (Z.eqb_spec m 0); [lia | reflexivity]. }
  assert (Hsafe : failsafe store (Int m) = Int m).
  { unfold failsafe. simpl. destruct (Z.leb_spec m 0); [lia | reflexivity]. }
  rewrite Hfeed, bind_returns. cbv beta iota. rewrite Hsafe.
  eexists. eexists. split; [reflexivity |]. repeat split.
Qed.

Lemma pipeline_reports_maximum_witness :
  exists r store',
    pipeline (H := example_host) {[ LAST_VALID_AQI_KEY := "120" ]}
      (world_of (Returns (bounds_of [VStr "152"; VStr "301"])) (Throws NetworkError))
      = Returns (r, store')
    /\ aqi r = Int 301
    /\ status r = getStatusFromAQI (Int 301)
    /\ dominant r = VStr "PM2.5"
    /\ city r = VStr "Delhi NCT".
Proof.
  apply (pipeline_reports_maximum (H := example_host) _ _
           (bounds_of [VStr "152"; VStr "301"]) 301).
  - reflexivity.
  - reflexivity.
  - lia.
Defined.

(** A fresh, valid cache entry is returned as it is, and nothing is
    written. *)
Theorem fetchLiveCityAQI_cache_hit `{Host} (store : Storage) (w : World) (data : value) :
  cache_check store (now w) = Some data ->
  fetchLiveCityAQI store w = (Returns (Cached data), store).
Proof. intros Hhit. unfold fetchLiveCityAQI. rewrite Hhit. reflexivity. Qed.

Lemma fetchLiveCityAQI_cache_hit_witness :
  fetchLiveCityAQI (H := example_host) {[ CACHE_KEY := entry_text ]}
    (world_of (Throws NetworkError) (Throws NetworkError))
  = (Returns (Cached (VObj [ ("aqi", VNum (Int 412)) ])),
     {[ CACHE_KEY := entry_text ]}).
Proof.
  apply (fetchLiveCityAQI_cache_hit (H := example_host)).
  vm_compute. reflexivity.
Defined.

(** A hit means the stored entry parsed, is younger than ten minutes and
    carries a positive AQI. *)
Lemma cache_check_hit `{Host} (store : Storage) (now : Z) (data : value) :
  cache_check store now = Some data ->
  exists cached parsed timestamp a,
    store !! CACHE_KEY = Some cached
    /\ JSON_parse cached = Some parsed
    /\ get parsed "data" = Returns data
    /\ get parsed "timestamp" = Returns timestamp
    /\ lt (sub (Int now) (ToNumber timestamp)) (Int 600000) = true
    /\ get data "aqi" = Returns a
    /\ gt (ToNumber a) (Int 0) = true.
Proof.
  unfold cache_check, read_cache, present. intros Hhit.
  destruct (store !! CACHE_KEY) as [cached|]; [| discriminate].
  destruct (String.eqb cached ""); [discriminate |].
  destruct (JSON_parse cached) as [parsed|] eqn:Hparse; [| discriminate].
  rewrite bind_returns in Hhit.
  destruct (get parsed "data") as [d|] eqn:Hd; [| discriminate].
  rewrite bind_returns in Hhit.
  destruct (get parsed "timestamp") as [t|] eqn:Ht; [| discriminate].
  rewrite bind_returns in Hhit.
  destruct (lt (sub (Int now) (ToNumber t)) (Int (10 * 60 * 1000))) eqn:Hfresh;
    [| discriminate].
  destruct (get d "aqi") as [a|] eqn:Ha; [| discriminate].
  rewrite bind_returns in Hhit.
  destruct (gt (ToNumber a) (Int 0)) eqn:Hpos; [| discriminate].
  injection Hhit as <-.
  exists cached, parsed, t, a. repeat split; assumption.
Qed.

(** The second worked example of the specification, as the code computes it:
    AQI 100 with 150 stored, at hour 14.  The exposure is unlimited: the
    60-minute tier starts above 100. *)
Theorem calculateIntelligence_afternoon :
  let i := calculateIntelligence {[ LAST_VALID_AQI_KEY := "150" ]} 14 (Int 100) in
  trend i = improving
  /\ prediction i = decreasing
  /\ exposureMinutes i = Unlimited
  /\ stage (grap i) = 0.
Proof. vm_compute. repeat split. Qed.

(** ** The station list *)

Lemma or_zero_positive (n : number) :
  gt (or_zero n) (Int 0) = match n with Int z => 0 <? z | NaN => false end.
Proof.
  destruct n as [|z]; [reflexivity |]. simpl.
  destruct (Z.eqb_spec z 0) as [-> | _]; reflexivity.
Qed.

Lemma or_zero_kept (n : number) : gt (or_zero n) (Int 0) = true -> or_zero n = n.
Proof.
  destruct n as [|z]; simpl; [discriminate |].
  destruct (Z.eqb_spec z 0) as [-> | _]; [discriminate | reflexivity].
Qed.

Lemma station_of_reading (s : value) (f : FetchedStation) :
  station_of s = Returns f ->
  exists a, get s "aqi" = Returns a /\ fetched_aqi f = or_zero (parseInt (ToString a)).
Proof.
  unfold station_of. intros Hf.
  destruct (get s "uid") as [uid|]; [| discriminate]. rewrite bind_returns in Hf.
  destruct (get s "lat") as [lat|]; [| discriminate]. rewrite bind_returns in Hf.
  destruct (get s "lon") as [lon|]; [| discriminate]. rewrite bind_returns in Hf.
  destruct (get s "aqi") as [a|]; [| discriminate]. rewrite bind_returns in Hf.
  destruct (get s "station") as [st|]; [| discriminate]. rewrite bind_returns in Hf.
  destruct (get st "name") as [name|]; [| discriminate]. rewrite bind_returns in Hf.
  injection Hf as <-. exists a. split; reflexivity.
Qed.

(** What a non-throwing run of the [try] block went through. *)
Lemma read_stations_returns (json : value) (stations : list FetchedStation) :
  read_stations (Returns json) = Returns stations ->
  stations <> [] ->
  get json "status" = Returns (VStr "ok")
  /\ exists items mapped,
       get json "data" = Returns (VArr items)
       /\ map_outcome station_of items = Returns mapped
       /\ stations = List.filter (fun s => gt (fetched_aqi s) (Int 0)) mapped.
Proof.
  unfold read_stations. rewrite bind_returns. intros Hrun Hne.
  destruct (get json "status") as [st|] eqn:Hst; [| discriminate].
  rewrite bind_returns in Hrun.
  destruct st as [| | | |t| |]; simpl in Hrun;
    try (injection Hrun as <-; contradiction).
  destruct (String.eqb_spec t "ok") as [-> | _]; simpl in Hrun;
    [| injection Hrun as <-; contradiction].
  split; [reflexivity |].
  destruct (get json "data") as [data|]; [| discriminate].
  rewrite bind_returns in Hrun.
  destruct data as [| | | | |items|]; try discriminate.
  destruct (map_outcome station_of items) as [mapped|] eqn:Hmap; [| discriminate].
  rewrite bind_returns in Hrun. injection Hrun as <-.
  exists items, mapped. split; [reflexivity | split; [exact Hmap | reflexivity]].
Qed.

(** X4: when the readings of the answer have at most 15 characters, every
    station [fetchRealTimeStations] returns carries a positive integer AQI
    below 2^53, whatever else the endpoint answered: a reading that does not
    parse becomes 0 and is dropped with the readings that are not positive. *)
Theorem fetchRealTimeStations_positive
    (response : outcome value) (f : FetchedStation) :
  short_stations response = true ->
  In f (fetchRealTimeStations response) ->
  exists z, fetched_aqi f = Int z /\ 0 < z < 2 ^ 53.
Proof.
  unfold fetchRealTimeStations. intros Hshort Hin.
  destruct (read_stations response) as [stations|] eqn:Hrun; [| contradiction].
  destruct response as [json|]; [| discriminate].
  assert (Hne : stations <> []) by (intros ->; contradiction).
  destruct (read_stations_returns json stations Hrun Hne)
    as (_ & items & mapped & Hdata & Hmap & ->).
  apply filter_In in Hin as (Hin & Hpos).
  destruct (map_outcome_In _ _ _ _ Hmap Hin) as (s & Hs & Hstation).
  destruct (station_of_reading s f Hstation) as (a & Ha & Hf).
  unfold short_stations in Hshort. rewrite Hdata in Hshort.
  rewrite forallb_forall in Hshort. specialize (Hshort s Hs).
  rewrite Ha in Hshort. apply short_reading_safe in Hshort.
  rewrite (or_zero_kept _ ltac:(rewrite <- Hf; exact Hpos)) in Hf.
  rewrite Hf in Hpos |- *.
  destruct (parseInt (ToString a)) as [|z]; [discriminate |].
  exists z. split; [reflexivity |]. simpl in Hpos. unfold safe in Hshort. lia.
Qed.

Lemma fetchRealTimeStations_positive_witness :
  exists z,
    fetched_aqi
      {| fetched_uid := VNum (Int 7); fetched_lat := VNum (Int 28);
         fetched_lon := VNum (Int 77); fetched_aqi := Int 187;
         fetched_name := VStr "ITO" |} = Int z
    /\ 0 < z < 2 ^ 53.
Proof.
  apply (fetchRealTimeStations_positive
           (Returns (VObj [ ("status", VStr "ok");
                            ("data", VArr [ VObj [ ("uid", VNum (Int 7));
                                                   ("lat", VNum (Int 28));
                                                   ("lon", VNum (Int 77));
                                                   ("aqi", VStr "187");
                                                   ("station", VObj [ ("name", VStr "ITO") ]) ] ]) ]))).
  - reflexivity.
  - left. reflexivity.
Defined.

(** The stations' AQIs are the readings of the aggregation, with NaN turned
    into 0. *)
Lemma station_readings (items : list value) (mapped : list FetchedStation) :
  map_outcome station_of items = Returns mapped ->
  exists parsed,
    map_outcome (fun s => let* a := get s "aqi" in Returns (parseInt (ToString a)))
      items = Returns parsed
    /\ List.map fetched_aqi mapped = List.map or_zero parsed.
Proof.
  revert mapped. induction items as [|s rest IH]; intros mapped Hmap.
  - injection Hmap as <-. exists []. split; reflexivity.
  - cbn [map_outcome] in Hmap |- *.
    destruct (station_of s) as [f|] eqn:Hf; [| discriminate].
    rewrite bind_returns in Hmap.
    destruct (map_outcome station_of rest) as [fs|]; [| discriminate].
    rewrite bind_returns in Hmap. injection Hmap as <-.
    destruct (IH fs eq_refl) as (parsed & Hparsed & Haqis).
    destruct (station_of_reading s f Hf) as (a & Ha & Haqi).
    exists (parseInt (ToString a) :: parsed). split.
    + rewrite Ha, !bind_returns, Hparsed. reflexivity.
    + simpl. rewrite Haqi, Haqis. reflexivity.
Qed.

Lemma kept_stations_readings (mapped : list FetchedStation) (parsed : list number) :
  List.map fetched_aqi mapped = List.map or_zero parsed ->
  List.map fetched_aqi (List.filter (fun s => gt (fetched_aqi s) (Int 0)) mapped)
  = valid_readings parsed.
Proof.
  unfold valid_readings.
  revert parsed. induction mapped as [|f fs IH]; intros [|v vs] Heq;
    try discriminate; [reflexivity |].
  injection Heq as Hf Hfs. simpl.
  rewrite Hf, or_zero_positive.
  destruct v as [|z]; [now apply IH |].
  destruct (0 <? z) eqn:Hz; [| now apply IH].
  simpl. rewrite Hf, (IH vs Hfs). f_equal.
  apply or_zero_kept. rewrite or_zero_positive. exact Hz.
Qed.

(** X5: when [fetchRealTimeStations] returns stations for an answer, the city
    AQI that [fetchLiveCityAQI] aggregates from the same answer is the
    largest AQI among those stations. *)
Theorem city_aqi_is_worst_station (json : value) (stations : list FetchedStation) :
  fetchRealTimeStations (Returns json) = stations ->
  stations <> [] ->
  exists m,
    aggregate json = Returns (Int m)
    /\ In (Int m) (List.map fetched_aqi stations)
    /\ forall g, In g stations -> exists z, fetched_aqi g = Int z /\ 0 < z <= m.
Proof.
  unfold fetchRealTimeStations. intros Hrun Hne.
  destruct (read_stations (Returns json)) as [found|] eqn:Hread;
    [subst found | now subst stations].
  destruct (read_stations_returns json stations Hread Hne)
    as (Hstatus & items & mapped & Hdata & Hmap & Hkept).
  destruct (station_readings items mapped Hmap) as (parsed & Hparsed & Haqis).
  pose proof (kept_stations_readings mapped parsed Haqis) as Hvalid.
  rewrite <- Hkept in Hvalid.
  assert (Hitems : validStations items = Returns (valid_readings parsed)).
  { unfold validStations, valid_readings. rewrite Hparsed, bind_returns. f_equal.
    apply filter_ext. intros v. apply valid_reading. }
  destruct (filter_positive_integers parsed) as (zs & Hzs & Hpos).
  rewrite Hzs in Hvalid, Hitems.
  destruct zs as [|z zs].
  { destruct stations; [contradiction | discriminate Hvalid]. }
  destruct (Math_max_integers zs z) as (m & Hm & Hin & Hmax).
  exists m. split; [| split].
  - unfold aggregate. rewrite Hstatus, bind_returns. simpl is_string.
    cbv iota. rewrite Hdata, bind_returns.
    destruct items as [|s rest].
    + injection Hmap as <-. simpl in Hkept. contradiction.
    + rewrite Hitems, bind_returns. cbn [List.map]. rewrite Hm. reflexivity.
  - rewrite Hvalid. apply in_map. exact Hin.
  - intros g Hg.
    apply (in_map fetched_aqi) in Hg. rewrite Hvalid in Hg.
    apply in_map_iff in Hg as (z' & Hz' & Hin').
    exists z'. split; [now symmetry |].
    split; [| apply Hmax; exact Hin'].
    rewrite List.Forall_forall in Hpos. apply Hpos. exact Hin'.
Qed.

Lemma city_aqi_is_worst_station_witness :
  aggregate
    (VObj [ ("status", VStr "ok");
            ("data", VArr [ VObj [ ("aqi", VStr "187");
                                   ("station", VObj [ ("name", VStr "ITO") ]) ];
                            VObj [ ("aqi", VStr "-");
                                   ("station", VObj [ ("name", VStr "Okhla") ]) ];
                            VObj [ ("aqi", VNum (Int 402));
                                   ("station", VObj [ ("name", VStr "Anand Vihar") ]) ] ]) ])
  = Returns (Int 402).
Proof.
  destruct (city_aqi_is_worst_station
              (VObj [ ("status", VStr "ok");
                      ("data", VArr [ VObj [ ("aqi", VStr "187");
                                             ("station", VObj [ ("name", VStr "ITO") ]) ];
                                      VObj [ ("aqi", VStr "-");
                                             ("station", VObj [ ("name", VStr "Okhla") ]) ];
                                      VObj [ ("aqi", VNum (Int 402));
                                             ("station", VObj [ ("name", VStr "Anand Vihar") ]) ] ]) ])
              _ eq_refl) as (m & Hm & Hin & _).
  - discriminate.
  - rewrite Hm. do 2 f_equal.
    destruct Hin as [Hin | [Hin | []]]; injection Hin as <-; [| reflexivity].
    discriminate Hm.
Defined.

Lemma map_outcome_throws {A B : Type} (f : A -> outcome B) (l : list A) (x : A) (e : exn) :
  In x l -> f x = Throws e -> exists e', map_outcome f l = Throws e'.
Proof.
  intros Hin Hx. induction l as [|y rest IH]; [contradiction |].
  cbn [map_outcome].
  destruct (f y) as [b|e0] eqn:Hy; [| now exists e0].
  rewrite bind_returns.
  destruct Hin as [-> | Hin]; [congruence |].
  destruct (IH Hin) as (e' & ->). now exists e'.
Qed.

Lemma station_of_without_station (s : value) :
  get s "station" = Returns VUndefined -> station_of s = Throws TypeError.
Proof.
  intros Hst. unfold station_of.
  destruct s; try discriminate; simpl in Hst |- *; rewrite ?Hst;
    try reflexivity.
  injection Hst as ->. reflexivity.
Qed.

(** X6: one entry without a [station] object empties the whole list: the
    TypeError of [s.station.name] is caught around the [map], so the valid
    stations beside it are lost too. *)
Theorem fetchRealTimeStations_all_or_nothing
    (json : value) (items : list value) (bad : value) :
  get json "data" = Returns (VArr items) ->
  In bad items ->
  get bad "station" = Returns VUndefined ->
  fetchRealTimeStations (Returns json) = [].
Proof.
  intros Hdata Hin Hbad.
  unfold fetchRealTimeStations, read_stations. rewrite bind_returns.
  destruct (get json "status") as [st|]; [| reflexivity].
  rewrite bind_returns.
  destruct (negb (is_string st "ok")); [reflexivity |].
  rewrite Hdata, bind_returns.
  destruct (map_outcome_throws station_of items bad TypeError Hin
              (station_of_without_station bad Hbad)) as (e' & ->).
  reflexivity.
Qed.

Lemma fetchRealTimeStations_all_or_nothing_witness :
  fetchRealTimeStations
    (Returns (VObj [ ("status", VStr "ok");
                     ("data", VArr [ VObj [ ("aqi", VStr "187");
                                            ("station", VObj [ ("name", VStr "ITO") ]) ];
                                     VObj [ ("aqi", VStr "240") ] ]) ]))
  = [].
Proof.
  apply (fetchRealTimeStations_all_or_nothing _
           [ VObj [ ("aqi", VStr "187"); ("station", VObj [ ("name", VStr "ITO") ]) ];
             VObj [ ("aqi", VStr "240") ] ]
           (VObj [ ("aqi", VStr "240") ])).
  - reflexivity.
  - right. left. reflexivity.
  - reflexivity.
Defined.

(** ** Ward interpolation on any station list *)

Local Open Scope Q_scope.

Lemma weight_pos (c : Q * Q) (s : Station) :
  0 < 1 / (distance2 c s + (1 # 100000)).
Proof. apply weight_positive. Qed.

(** The running sums stay between [lo] and [hi] times the running weight. *)
Lemma idw_fold_bounds (c : Q * Q) (lo hi : Z) (stations : list Station) (acc : IdwState) :
  (forall s, In s stations -> (lo <= station_aqi s <= hi)%Z) ->
  let final := fold_left (idw_step c) stations acc in
  totalWeight acc <= totalWeight final
  /\ (inject_Z lo * totalWeight acc <= weightedAQISum acc ->
      inject_Z lo * totalWeight final <= weightedAQISum final)
  /\ (weightedAQISum acc <= inject_Z hi * totalWeight acc ->
      weightedAQISum final <= inject_Z hi * totalWeight final).
Proof.
  revert acc. induction stations as [|s rest IH]; intros acc Hrange; cbn [fold_left].
  - repeat split; [apply Qle_refl | tauto | tauto].
  - destruct (IH (idw_step c acc s)) as (HW & Hlo & Hhi).
    { intros t Ht. apply Hrange. now right. }
    pose proof (weight_pos c s) as Hw.
    destruct (Hrange s (or_introl eq_refl)) as (Hlos & Hhis).
    rewrite Zle_Qle in Hlos, Hhis.
    cbn [idw_step totalWeight weightedAQISum] in HW, Hlo, Hhi.
    set (w := 1 / (distance2 c s + (1 # 100000))) in *.
    repeat split.
    + apply Qle_trans with (totalWeight acc + w); [lra | exact HW].
    + intros Hacc. apply Hlo. nra.
    + intros Hacc. apply Hhi. nra.
Qed.

Lemma Math_round_between (x : Q) (lo hi : Z) :
  inject_Z lo <= x -> x <= inject_Z hi -> (lo <= Math_round x <= hi)%Z.
Proof.
  intros Hlo Hhi. unfold Math_round. split.
  - rewrite <- (Qfloor_Z lo). apply Qfloor_resp_le. lra.
  - rewrite <- (Math_round_integer (inject_Z hi) hi) by reflexivity.
    unfold Math_round. apply Qfloor_resp_le. lra.
Qed.

(** X7: the interpolated ward AQI never leaves the range of the station
    AQIs: if every station reads between [lo] and [hi], so does the ward. *)
Theorem interpolateWardAQI_within_range
    (centroid : Q * Q) (stations : list Station) (lo hi : Z) :
  stations <> [] ->
  (forall s, In s stations -> (lo <= station_aqi s <= hi)%Z) ->
  (lo <= ward_aqi (interpolateWardAQI centroid stations) <= hi)%Z.
Proof.
  intros Hne Hrange.
  destruct stations as [|first rest]; [contradiction |].
  unfold interpolateWardAQI. cbn [ward_aqi].
  set (init := {| totalWeight := 0; weightedAQISum := 0; minDist2 := None;
                  nearestStationName := stationName first |}).
  cbn [fold_left].
  destruct (idw_fold_bounds centroid lo hi rest (idw_step centroid init first))
    as (HW & Hlo & Hhi).
  { intros t Ht. apply Hrange. now right. }
  pose proof (weight_pos centroid first) as Hw.
  destruct (Hrange first (or_introl eq_refl)) as (Hlos & Hhis).
  rewrite Zle_Qle in Hlos, Hhis.
  cbn [idw_step totalWeight weightedAQISum init] in HW, Hlo, Hhi.
  set (final := fold_left (idw_step centroid) rest (idw_step centroid init first)) in *.
  set (w := 1 / (distance2 centroid first + (1 # 100000))) in *.
  assert (HWpos : 0 < totalWeight final) by lra.
  apply Math_round_between.
  - apply Qle_shift_div_l; [exact HWpos |]. apply Hlo. nra.
  - apply Qle_shift_div_r; [exact HWpos |]. apply Hhi. nra.
Qed.

Lemma interpolateWardAQI_within_range_witness :
  (150 <= ward_aqi (interpolateWardAQI (28 # 1, 77 # 1)
                      [ {| uid := 1; lat := 57 # 2; lon := 77 # 1;
                           station_aqi := 150; stationName := "ITO" |};
                        {| uid := 2; lat := 28 # 1; lon := 155 # 2;
                           station_aqi := 320; stationName := "Okhla" |} ]) <= 320)%Z.
Proof.
  apply interpolateWardAQI_within_range.
  - discriminate.
  - intros s [<- | [<- | []]]; simpl; lia.
Defined.

Local Close Scope Q_scope.

(** ** How the tables of the analysis line up *)

Lemma calculateIntelligence_fields (store : Storage) (hour : Z) (n : number) :
  riskLevel (calculateIntelligence store hour n) = getStatusFromAQI n
  /\ grap (calculateIntelligence store hour n) = getGRAPStage n
  /\ prediction (calculateIntelligence store hour n)
     = micro_prediction hour (detect_trend store n)
  /\ exposureMinutes (calculateIntelligence store hour n)
     = (if gt n (Int 300) then Minutes 0
        else if gt n (Int 200) then Minutes 15
        else if gt n (Int 150) then Minutes 30
        else if gt n (Int 100) then Minutes 60
        else Unlimited).
Proof.
  unfold calculateIntelligence.
  destruct (gt n (Int 300)), (gt n (Int 200)), (gt n (Int 150)), (gt n (Int 100));
    repeat split.
Qed.

Ltac settle_table :=
  intros; simpl in *;
  repeat match goal with
         | H : _ \/ _ |- _ => destruct H
         | H : _ /\ _ |- _ => destruct H
         end;
  try discriminate; try congruence; try lia;
  first [ reflexivity
        | left; (reflexivity || lia)
        | right; (reflexivity || lia)
        | split; [reflexivity | lia] ].

(** X10: in every analysis the GRAP stage and the risk level go together:
    stages 1 and 2 with POOR, stage 0 with MODERATE or GOOD, stage 3 with
    SEVERE and stage 4 with HAZARDOUS, except at AQI 450, where the stage is
    already 4 ([>= 450]) while the level is still SEVERE ([> 450]). *)
Theorem grap_stage_and_risk_level (store : Storage) (hour a : Z) :
  let i := calculateIntelligence store hour (Int a) in
  (stage (grap i) = 4 <-> riskLevel i = HAZARDOUS \/ a = 450)
  /\ (stage (grap i) = 3 <-> riskLevel i = SEVERE /\ a <> 450)
  /\ (stage (grap i) = 2 \/ stage (grap i) = 1 <-> riskLevel i = POOR)
  /\ (stage (grap i) = 0 <-> riskLevel i = MODERATE \/ riskLevel i = GOOD).
Proof.
  cbv zeta.
  destruct (calculateIntelligence_fields store hour (Int a)) as (-> & -> & _).
  unfold getGRAPStage, getStatusFromAQI, ge, gt.
  split_bins; repeat split; settle_table.
Qed.

(** X11: the exposure limit follows the other two tables: it is 0 minutes
    exactly from GRAP stage 2 on, 15 minutes exactly at stage 1, unlimited
    exactly at level GOOD, and 30 or 60 minutes exactly at level MODERATE. *)
Theorem exposure_limit_and_tables (store : Storage) (hour a : Z) :
  let i := calculateIntelligence store hour (Int a) in
  (exposureMinutes i = Minutes 0 <-> 2 <= stage (grap i))
  /\ (exposureMinutes i = Minutes 15 <-> stage (grap i) = 1)
  /\ (exposureMinutes i = Minutes 30 \/ exposureMinutes i = Minutes 60
      <-> riskLevel i = MODERATE)
  /\ (exposureMinutes i = Unlimited <-> riskLevel i = GOOD).
Proof.
  cbv zeta.
  destruct (calculateIntelligence_fields store hour (Int a)) as (-> & -> & _ & ->).
  unfold getGRAPStage, getStatusFromAQI, ge, gt.
  split_bins; repeat split; settle_table.
Qed.

(** X12: a higher AQI never lengthens the exposure limit: if the analysis of
    one AQI allows [m] minutes, the analysis of any higher AQI allows a
    number of minutes that is at most [m]. *)
Theorem exposure_limit_monotone (store store' : Storage) (hour hour' a b m : Z) :
  a <= b ->
  exposureMinutes (calculateIntelligence store hour (Int a)) = Minutes m ->
  exists m',
    exposureMinutes (calculateIntelligence store' hour' (Int b)) = Minutes m'
    /\ m' <= m.
Proof.
  intros Hab.
  destruct (calculateIntelligence_fields store hour (Int a)) as (_ & _ & _ & ->).
  destruct (calculateIntelligence_fields store' hour' (Int b)) as (_ & _ & _ & ->).
  unfold gt. split_bins; intros [= <-]; eexists; (split; [reflexivity | lia]).
Qed.

Lemma exposure_limit_monotone_witness :
  exists m',
    exposureMinutes (calculateIntelligence ∅ 9 (Int 260)) = Minutes m' /\ m' <= 30.
Proof.
  apply (exposure_limit_monotone ∅ ∅ 20 9 180 260 30).
  - lia.
  - reflexivity.
Defined.

(** ** What a call of [fetchLiveCityAQI] does to the store *)

Lemma pipeline_store `{Host} (store store' : Storage) (w : World) (r : LiveAqiData) :
  pipeline store w = Returns (r, store') ->
  exists text,
    store' = <[CACHE_KEY := text]> (<[LAST_VALID_AQI_KEY := toString (aqi r)]> store).
Proof.
  unfold pipeline. intros Hrun.
  destruct (bounds_response w) as [json|]; [simpl in Hrun | discriminate].
  destruct (aggregate json) as [aggregated|]; [simpl in Hrun | discriminate].
  destruct (city_feed w aggregated) as [[[fetched dom] cty]|]; [simpl in Hrun | discriminate].
  injection Hrun as <- <-. eexists. reflexivity.
Qed.

(** The store a call leaves is the one it found, or that one with the two
    slots written. *)
Lemma fetchLiveCityAQI_store `{Host} (store : Storage) (w : World) :
  snd (fetchLiveCityAQI store w) = store
  \/ exists r text,
       pipeline store w = Returns (r, snd (fetchLiveCityAQI store w))
       /\ snd (fetchLiveCityAQI store w)
          = <[CACHE_KEY := text]> (<[LAST_VALID_AQI_KEY := toString (aqi r)]> store).
Proof.
  unfold fetchLiveCityAQI.
  destruct (cache_check store (now w)); [now left |].
  destruct (pipeline store w) as [[r store']|] eqn:Hrun; [| now left].
  right. destruct (pipeline_store _ _ _ _ Hrun) as (text & Hstore).
  exists r, text. split; [reflexivity | exact Hstore].
Qed.

(** X13: a call touches no key of [localStorage] other than its two slots. *)
Theorem fetchLiveCityAQI_frame `{Host} (store : Storage) (w : World) (key : string) :
  key <> CACHE_KEY ->
  key <> LAST_VALID_AQI_KEY ->
  snd (fetchLiveCityAQI store w) !! key = store !! key.
Proof.
  intros Hcache Hlast.
  destruct (fetchLiveCityAQI_store store w) as [-> | (r & text & _ & ->)];
    [reflexivity |].
  rewrite !lookup_insert_ne by congruence. reflexivity.
Qed.

Lemma fetchLiveCityAQI_frame_witness :
  snd (fetchLiveCityAQI (H := example_host) {[ "pureair_theme" := "dark" ]}
         (world_of (Returns (bounds_of [VStr "412"])) (Returns refused)))
    !! "pureair_theme"
  = Some "dark".
Proof.
  rewrite (fetchLiveCityAQI_frame (H := example_host)); [reflexivity | |]; discriminate.
Defined.

(** *** The last-valid slot stays readable *)

Lemma sane_slot_written (store : Storage) (z : Z) :
  0 < z < 2 ^ 53 ->
  sane_slot (<[LAST_VALID_AQI_KEY := toString (Int z)]> store !! LAST_VALID_AQI_KEY).
Proof.
  intros Hz. rewrite lookup_insert_eq.
  assert (Hsmall : Z.abs z < 10 ^ 21).
  { apply Z.lt_trans with (2 ^ 53); [lia | reflexivity]. }
  pose proof (parseInt_toString z Hsmall) as Hback.
  unfold sane_slot, present.
  destruct (String.eqb_spec (toString (Int z)) "") as [Hempty | _].
  - rewrite Hempty in Hback. discriminate Hback.
  - exists z. split; assumption.
Qed.

(** What one call keeps: the slot stays sane when the readings are short. *)
Lemma call_keeps_slot_sane `{Host} (store : Storage) (w : World) :
  sane_slot (store !! LAST_VALID_AQI_KEY) ->
  short_readings w = true ->
  sane_slot (snd (fetchLiveCityAQI store w) !! LAST_VALID_AQI_KEY).
Proof.
  intros Hsane Hshort.
  destruct (fetchLiveCityAQI_store store w) as [-> | (r & text & Hrun & ->)];
    [exact Hsane |].
  destruct (pipeline_positive _ _ _ _ Hshort Hsane Hrun) as (z & Hz & Hpos).
  rewrite lookup_insert_ne by discriminate.
  rewrite Hz. now apply sane_slot_written.
Qed.

(** X14: a call never spoils its own last-valid slot: if the slot was empty
    or held a positive safe integer before the call and the readings of the
    endpoints have at most 15 characters, the slot is empty or holds a
    positive safe integer after it, whatever else the endpoints answered. *)
Theorem fetchLiveCityAQI_keeps_slot_sane `{Host} (store : Storage) (w : World) :
  sane_slot (store !! LAST_VALID_AQI_KEY) ->
  short_readings w = true ->
  sane_slot (snd (fetchLiveCityAQI store w) !! LAST_VALID_AQI_KEY).
Proof.
  intros Hsane Hshort. now apply call_keeps_slot_sane.
Qed.

Lemma fetchLiveCityAQI_keeps_slot_sane_witness :
  sane_slot
    (snd (fetchLiveCityAQI (H := example_host) {[ LAST_VALID_AQI_KEY := "287" ]}
            (world_of (Returns (bounds_of [VStr "412"; VStr "n/a"]))
                      (Returns refused)))
       !! LAST_VALID_AQI_KEY).
Proof.
  apply (fetchLiveCityAQI_keeps_slot_sane (H := example_host)).
  - exists 287. split; [reflexivity | split; reflexivity].
  - reflexivity.
Defined.

(** The state of [App] that the refreshes keep: a sane slot, and a positive
    safe AQI in the record shown whenever that record was built rather than
    read from the cache. *)
Lemma refresh_invariant `{Host} (ws : list World) (liveAqi : option Resolved) (store : Storage) :
  forallb short_readings ws = true ->
  sane_slot (store !! LAST_VALID_AQI_KEY) ->
  (forall r, liveAqi = Some (Built r) -> exists z, aqi r = Int z /\ 0 < z < 2 ^ 53) ->
  sane_slot (snd (refresh_all (liveAqi, store) ws) !! LAST_VALID_AQI_KEY)
  /\ forall r, fst (refresh_all (liveAqi, store) ws) = Some (Built r) ->
               exists z, aqi r = Int z /\ 0 < z < 2 ^ 53.
Proof.
  unfold refresh_all.
  revert liveAqi store.
  induction ws as [|w ws IH]; intros liveAqi store Hshort Hsane Hshown.
  - split; assumption.
  - cbn [forallb] in Hshort. apply andb_true_iff in Hshort as (Hw & Hws).
    cbn [fold_left]. unfold refresh at 2 4.
    pose proof (call_keeps_slot_sane store w Hsane Hw) as Hsane'.
    destruct (fetchLiveCityAQI store w) as [[live|e] store'] eqn:Hcall;
      cbn [snd] in Hsane'.
    + apply IH; [exact Hws | exact Hsane' |].
      intros r Hr.
      destruct live as [data|r']; cbn [resolved_truthy] in Hr.
      * destruct (truthy data); [discriminate | now apply Hshown].
      * injection Hr as ->. exact (built_record_positive _ _ _ _ Hw Hsane Hcall).
    + apply IH; assumption.
Qed.

(** X15: over any session of [App] that starts with an empty or sane
    last-valid slot and meets only readings of at most 15 characters, the
    slot stays sane after the start-up call and every tick, and a record
    shown that the pipeline built (not one read back from the cache) always
    carries a positive safe AQI. *)
Theorem session_positive `{Host}
    (wards_loaded : bool) (store : Storage) (w : World) (ws : list World) :
  sane_slot (store !! LAST_VALID_AQI_KEY) ->
  forallb short_readings (w :: ws) = true ->
  sane_slot (snd (session wards_loaded store w ws) !! LAST_VALID_AQI_KEY)
  /\ forall r, fst (session wards_loaded store w ws) = Some (Built r) ->
               exists z, aqi r = Int z /\ 0 < z < 2 ^ 53.
Proof.
  intros Hsane Hshort. unfold session.
  cbn [forallb] in Hshort. apply andb_true_iff in Hshort as (Hw & Hws).
  pose proof (call_keeps_slot_sane store w Hsane Hw) as Hsane'.
  unfold startup.
  destruct (fetchLiveCityAQI store w) as [[live|e] store'] eqn:Hcall;
    cbn [snd] in Hsane'.
  - apply refresh_invariant; [exact Hws | exact Hsane' |].
    intros r Hr.
    destruct live as [data|r']; cbn [resolved_truthy] in Hr.
    + destruct (wards_loaded && truthy data); discriminate.
    + destruct wards_loaded; [| discriminate].
      injection Hr as ->. exact (built_record_positive _ _ _ _ Hw Hsane Hcall).
  - apply refresh_invariant; [exact Hws | exact Hsane' | discriminate].
Qed.

Lemma session_positive_witness :
  sane_slot
    (snd (session (H := example_host) true ∅
            (world_of (Returns (bounds_of [VStr "412"])) (Returns refused))
            [ world_of (Throws NetworkError) (Returns refused);
              world_of (Returns refused) (Returns refused) ])
       !! LAST_VALID_AQI_KEY).
Proof.
  refine (proj1 (session_positive (H := example_host) true ∅ _ _ _ _)).
  - unfold sane_slot. rewrite lookup_empty. exact I.
  - reflexivity.
Defined.

(** *** Writing the live entry and reading it back *)

Lemma pipeline_cache_entry `{Host} (store store' : Storage) (w : World) (r : LiveAqiData) :
  pipeline store w = Returns (r, store') ->
  store' !! CACHE_KEY
  = Some (JSON_stringify (VObj [ ("data", value_of_result r);
                                 ("timestamp", VNum (Int (now w))) ])).
Proof.
  unfold pipeline. intros Hrun.
  destruct (bounds_response w) as [json|]; [simpl in Hrun | discriminate].
  destruct (aggregate json) as [aggregated|]; [simpl in Hrun | discriminate].
  destruct (city_feed w aggregated) as [[[fetched dom] cty]|]; [simpl in Hrun | discriminate].
  injection Hrun as <- <-. apply lookup_insert_eq.
Qed.

(** What [read_cache] makes of an entry that parses to [data] written at
    [written]. *)
Lemma read_cache_entry `{Host} (store : Storage) (text : string) (data : value)
    (written current z : Z) :
  store !! CACHE_KEY = Some text ->
  text <> "" ->
  JSON_parse text = Some (VObj [ ("data", data); ("timestamp", VNum (Int written)) ]) ->
  get data "aqi" = Returns (VNum (Int z)) ->
  cache_check store current
  = if (current - written <? 600000) && (0 <? z) then Some data else None.
Proof.
  intros Hslot Hne Hparse Haqi.
  unfold cache_check, read_cache. rewrite Hslot. unfold present.
  destruct (String.eqb_spec text ""); [contradiction |].
  rewrite Hparse, !bind_returns. cbn [get assoc String.eqb Ascii.eqb Bool.eqb].
  rewrite !bind_returns. cbn [ToNumber sub lt].
  change (10 * 60 * 1000) with 600000.
  destruct (current - written <? 600000); [| reflexivity].
  rewrite Haqi, bind_returns. cbn [ToNumber gt andb].
  destruct (0 <? z); reflexivity.
Qed.

(** X16: the live entry round-trips.  After a run that built a record with a
    positive AQI, on a host whose [JSON.parse] reads back what
    [JSON.stringify] printed for the entry, a call made less than ten
    minutes later returns the record's printed form from the cache and
    writes nothing; from ten minutes on the entry is a miss. *)
Theorem live_entry_round_trip `{Host}
    (store store' : Storage) (w w' : World) (r : LiveAqiData) (z : Z) :
  pipeline store w = Returns (r, store') ->
  aqi r = Int z ->
  0 < z ->
  JSON_stringify (VObj [ ("data", value_of_result r); ("timestamp", VNum (Int (now w))) ])
    <> "" ->
  JSON_parse
    (JSON_stringify (VObj [ ("data", value_of_result r); ("timestamp", VNum (Int (now w))) ]))
    = Some (VObj [ ("data", value_of_result r); ("timestamp", VNum (Int (now w))) ]) ->
  (now w' - now w < 600000 ->
   fetchLiveCityAQI store' w' = (Returns (Cached (value_of_result r)), store'))
  /\ (600000 <= now w' - now w -> cache_check store' (now w') = None).
Proof.
  intros Hrun Haqi Hpos Hne Hparse.
  pose proof (pipeline_cache_entry _ _ _ _ Hrun) as Hslot.
  assert (Hread : get (value_of_result r) "aqi" = Returns (VNum (Int z))).
  { unfold value_of_result. simpl. rewrite Haqi. reflexivity. }
  pose proof (read_cache_entry store' _ (value_of_result r) (now w) (now w') z
                Hslot Hne Hparse Hread) as Hcheck.
  split; intros Hage.
  - unfold fetchLiveCityAQI. rewrite Hcheck.
    destruct (Z.ltb_spec (now w' - now w) 600000); [| lia].
    destruct (Z.ltb_spec 0 z); [| lia]. reflexivity.
  - rewrite Hcheck.
    destruct (Z.ltb_spec (now w' - now w) 600000); [lia | reflexivity].
Qed.

Lemma live_entry_round_trip_witness :
  exists r store',
    pipeline (H := echo_host) ∅ sample_world = Returns (r, store')
    /\ fetchLiveCityAQI (H := echo_host) store' (later sample_world 300000)
       = (Returns (Cached (value_of_result (H := echo_host) r)), store').
Proof.
  eexists. eexists. split; [vm_compute; reflexivity |].
  refine (proj1 (live_entry_round_trip (H := echo_host) ∅ _ sample_world
                   (later sample_world 300000) _ 412 _ _ _ _ _) _).
  - vm_compute. reflexivity.
  - reflexivity.
  - lia.
  - discriminate.
  - vm_compute. reflexivity.
  - simpl. lia.
Defined.

(** *** The [catch] branch *)

(** X17: when the [try] block throws and the live slot holds an entry that
    parses, the call resolves to that entry's [data] however old the entry
    is and whatever AQI it carries: the age and [aqi > 0] tests of step 1
    are not repeated. *)
Theorem fetchLiveCityAQI_stale_entry `{Host}
    (store : Storage) (w : World) (e : exn) (text : string) (parsed data : value) :
  cache_check store (now w) = None ->
  pipeline store w = Throws e ->
  store !! CACHE_KEY = Some text ->
  text <> "" ->
  JSON_parse text = Some parsed ->
  get parsed "data" = Returns data ->
  fetchLiveCityAQI store w = (Returns (Cached data), store).
Proof.
  intros Hmiss Hthrow Hslot Hne Hparse Hdata.
  unfold fetchLiveCityAQI. rewrite Hmiss, Hthrow.
  unfold recover, present. rewrite Hslot.
  destruct (String.eqb_spec text ""); [contradiction |].
  rewrite Hparse, bind_returns, Hdata. reflexivity.
Qed.

Lemma fetchLiveCityAQI_stale_entry_witness :
  fetchLiveCityAQI (H := example_host) {[ CACHE_KEY := entry_text ]}
    (later (world_of (Throws NetworkError) (Returns refused)) 86400000)
  = (Returns (Cached (VObj [ ("aqi", VNum (Int 412)) ])), {[ CACHE_KEY := entry_text ]}).
Proof.
  apply (fetchLiveCityAQI_stale_entry (H := example_host) _ _ NetworkError
           entry_text entry_value).
  - vm_compute. reflexivity.
  - reflexivity.
  - reflexivity.
  - discriminate.
  - vm_compute. reflexivity.
  - reflexivity.
Defined.

(** X18: a feed that answers ['ok'] with an AQI but without a [city] object
    costs the call its reading: [data.city.name] throws, and with no live
    entry stored the call resolves to the offline record of AQI 345 and
    writes nothing. *)
Theorem feed_without_city_goes_offline `{Host}
    (store : Storage) (w : World) (json feed data : value) :
  store !! CACHE_KEY = None ->
  bounds_response w = Returns json ->
  aggregate json = Returns (Int 0) ->
  feed_response w = Returns feed ->
  get feed "status" = Returns (VStr "ok") ->
  get feed "data" = Returns data ->
  get data "city" = Returns VUndefined ->
  exists r,
    fetchLiveCityAQI store w = (Returns (Built r), store)
    /\ aqi r = Int 345
    /\ city r = VStr "Delhi (Offline Mode)".
Proof.
  intros Hlive Hbounds Hagg Hfeed Hstatus Hdata Hcity.
  assert (Hmiss : cache_check store (now w) = None).
  { unfold cache_check, read_cache. rewrite Hlive. reflexivity. }
  assert (Hthrow : pipeline store w = Throws TypeError).
  { unfold pipeline. rewrite Hbounds, bind_returns, Hagg, bind_returns.
    unfold city_feed. cbn [strict_eq Z.eqb].
    rewrite Hfeed, bind_returns, Hstatus, bind_returns. cbn [is_string].
    change (String.eqb "ok" "ok") with true. cbv iota.
    rewrite Hdata, bind_returns.
    destruct data; try discriminate; cbn [get] in Hcity |- *;
      rewrite ?bind_returns; try (injection Hcity as Hcity; rewrite Hcity);
      reflexivity. }
  unfold fetchLiveCityAQI. rewrite Hmiss, Hthrow.
  unfold recover. rewrite Hlive. cbn [present].
  eexists. split; [reflexivity |]. split; reflexivity.
Qed.

Lemma feed_without_city_goes_offline_witness :
  exists r,
    fetchLiveCityAQI (H := example_host) ∅
      (world_of (Returns refused)
         (Returns (VObj [ ("status", VStr "ok");
                          ("data", VObj [ ("aqi", VNum (Int 156)) ]) ])))
    = (Returns (Built r), ∅)
    /\ aqi r = Int 345
    /\ city r = VStr "Delhi (Offline Mode)".
Proof.
  apply (feed_without_city_goes_offline (H := example_host) ∅ _ refused
           (VObj [ ("status", VStr "ok"); ("data", VObj [ ("aqi", VNum (Int 156)) ]) ])
           (VObj [ ("aqi", VNum (Int 156)) ]));
    reflexivity.
Defined.

(** X19: in a record built by a completed run the six-hour prediction
    depends on the hour alone: the trend of such a record is stable, so the
    [trend !== 'improving'] guard never bites.  (For a resolved AQI that is
    NaN or below 10^21.) *)
Theorem pipeline_prediction_by_hour `{Host}
    (store store' : Storage) (w : World) (r : LiveAqiData) :
  pipeline store w = Returns (r, store') ->
  positional (aqi r) ->
  prediction (intelligence r)
  = if (22 <=? hour w) || (hour w <=? 9) then increasing
    else if (12 <=? hour w) && (hour w <=? 17) then decreasing
    else steady.
Proof.
  intros Hrun Hpos.
  destruct (pipeline_returns _ _ _ _ Hrun) as (_ & _ & Hint & _).
  rewrite Hint.
  destruct (calculateIntelligence_fields
              (<[LAST_VALID_AQI_KEY := toString (aqi r)]> store) (hour w) (aqi r))
    as (_ & _ & -> & _).
  rewrite (detect_trend_after_write store (aqi r) Hpos).
  unfold micro_prediction. rewrite andb_true_r. reflexivity.
Qed.

Lemma pipeline_prediction_by_hour_witness :
  exists r store',
    pipeline (H := example_host) {[ LAST_VALID_AQI_KEY := "480" ]} sample_world
      = Returns (r, store')
    /\ prediction (intelligence r) = increasing.
Proof.
  eexists. eexists. split; [vm_compute; reflexivity |].
  etransitivity.
  - eapply (pipeline_prediction_by_hour (H := example_host)
              {[ LAST_VALID_AQI_KEY := "480" ]} _ sample_world).
    + vm_compute. reflexivity.
    + vm_compute. reflexivity.
  - reflexivity.
Defined.

(** ** The forecast cache *)

Local Open Scope Q_scope.

(** X20: a forecast the model returned is served again, without asking the
    model, to every call made less than fifteen minutes later whose inputs
    fall in the same cache bucket. *)
Theorem getAqiForecast_round_trip `{Host}
    (cache : Forecast.ForecastCache) (now now' : Z)
    (predictions : list Forecast.AtmosphericPrediction)
    (model' : option (list Forecast.AtmosphericPrediction))
    (currentAqi trendSlope currentAqi' trendSlope' : Q) :
  (forall entry,
     cache !! Forecast.cacheKey currentAqi trendSlope = Some entry ->
     (Forecast.FORECAST_CACHE_TTL <= now - Forecast.timestamp entry)%Z) ->
  Forecast.cacheKey currentAqi' trendSlope' = Forecast.cacheKey currentAqi trendSlope ->
  (now' - now < Forecast.FORECAST_CACHE_TTL)%Z ->
  Forecast.getAqiForecast
    (snd (Forecast.getAqiForecast cache now (Some predictions) currentAqi trendSlope))
    now' model' currentAqi' trendSlope'
  = (predictions,
     snd (Forecast.getAqiForecast cache now (Some predictions) currentAqi trendSlope)).
Proof.
  intros Hstale Hkey Hage.
  assert (Hfirst :
            Forecast.getAqiForecast cache now (Some predictions) currentAqi trendSlope
            = (predictions,
               <[Forecast.cacheKey currentAqi trendSlope :=
                   {| Forecast.data := predictions; Forecast.timestamp := now |}]> cache)).
  { unfold Forecast.getAqiForecast.
    destruct (cache !! Forecast.cacheKey currentAqi trendSlope) as [entry|] eqn:Hentry;
      [| reflexivity].
    specialize (Hstale entry eq_refl).
    destruct (Z.ltb_spec (now - Forecast.timestamp entry) Forecast.FORECAST_CACHE_TTL);
      [lia | reflexivity]. }
  rewrite Hfirst. cbn [snd].
  unfold Forecast.getAqiForecast at 1. rewrite Hkey, lookup_insert_eq.
  cbn [Forecast.timestamp Forecast.data].
  destruct (Z.ltb_spec (now' - now) Forecast.FORECAST_CACHE_TTL); [reflexivity | lia].
Qed.

Local Close Scope Q_scope.

Local Open Scope Q_scope.

Lemma getAqiForecast_round_trip_witness :
  Forecast.getAqiForecast (H := example_host)
    (snd (Forecast.getAqiForecast (H := example_host) ∅ 1700000000000
            (Some [ {| Forecast.hours := 24; Forecast.aqi := 310;
                       Forecast.primaryPollutant := "PM2.5"; Forecast.riskLevel := "Extreme";
                       Forecast.confidence := 80; Forecast.explanation := "model" |} ])
            298 (1 # 2)))
    1700000600000 None 302 (13 # 25)
  = ([ {| Forecast.hours := 24; Forecast.aqi := 310;
          Forecast.primaryPollutant := "PM2.5"; Forecast.riskLevel := "Extreme";
          Forecast.confidence := 80; Forecast.explanation := "model" |} ],
     snd (Forecast.getAqiForecast (H := example_host) ∅ 1700000000000
            (Some [ {| Forecast.hours := 24; Forecast.aqi := 310;
                       Forecast.primaryPollutant := "PM2.5"; Forecast.riskLevel := "Extreme";
                       Forecast.confidence := 80; Forecast.explanation := "model" |} ])
            298 (1 # 2))).
Proof.
  apply (getAqiForecast_round_trip (H := example_host)).
  - intros entry Hentry. discriminate Hentry.
  - reflexivity.
  - reflexivity.
Defined.

Lemma Math_round_near (x y : Q) :
  Math_round x = Math_round y -> -(1) < x - y /\ x - y < 1.
Proof.
  unfold Math_round. intros Heq.
  pose proof (Qfloor_le (x + (1 # 2))) as Hx1.
  pose proof (Qlt_floor (x + (1 # 2))) as Hx2.
  pose proof (Qfloor_le (y + (1 # 2))) as Hy1.
  pose proof (Qlt_floor (y + (1 # 2))) as Hy2.
  rewrite Heq in Hx1, Hx2.
  rewrite inject_Z_plus in Hx2, Hy2.
  change (inject_Z 1) with 1 in Hx2, Hy2.
  split; lra.
Qed.

(** X21: two calls share a cache bucket only if their AQIs differ by less
    than 5 and their slopes by less than 0.1: a forecast served from the
    cache was computed for inputs that close to the ones asked. *)
Theorem cacheKey_bucket (currentAqi trendSlope currentAqi' trendSlope' : Q) :
  Forecast.cacheKey currentAqi trendSlope = Forecast.cacheKey currentAqi' trendSlope' ->
  (-(5) < currentAqi - currentAqi' /\ currentAqi - currentAqi' < 5)
  /\ (-(1 # 10) < trendSlope - trendSlope' /\ trendSlope - trendSlope' < 1 # 10).
Proof.
  unfold Forecast.cacheKey. intros [= Haqi Hslope].
  assert (Haqi' : Math_round (currentAqi / 5) = Math_round (currentAqi' / 5)) by lia.
  destruct (Math_round_near _ _ Haqi') as (Ha1 & Ha2).
  destruct (Math_round_near _ _ Hslope) as (Hs1 & Hs2).
  assert (Ediv : currentAqi / 5 - currentAqi' / 5 == (currentAqi - currentAqi') * (1 # 5))
    by field.
  rewrite Ediv in Ha1, Ha2.
  repeat split; lra.
Qed.

Lemma cacheKey_bucket_witness :
  (-(5) < 298 - 302 /\ 298 - 302 < 5)
  /\ (-(1 # 10) < (1 # 2) - (13 # 25) /\ (1 # 2) - (13 # 25) < 1 # 10).
Proof.
  apply (cacheKey_bucket 298 (1 # 2) 302 (13 # 25)). reflexivity.
Defined.

Lemma Math_round_monotone (x y : Q) : x <= y -> (Math_round x <= Math_round y)%Z.
Proof. intros Hxy. unfold Math_round. apply Qfloor_resp_le. lra. Qed.

Lemma fallback_list `{Host}
    (cache : Forecast.ForecastCache) (now : Z) (currentAqi trendSlope : Q) :
  (forall entry,
     cache !! Forecast.cacheKey currentAqi trendSlope = Some entry ->
     (Forecast.FORECAST_CACHE_TTL <= now - Forecast.timestamp entry)%Z) ->
  Forecast.getAqiForecast cache now None currentAqi trendSlope
  = ([ Forecast.project currentAqi trendSlope 24;
       Forecast.project currentAqi trendSlope 48;
       Forecast.project currentAqi trendSlope 72 ], cache).
Proof.
  intros Hstale. unfold Forecast.getAqiForecast.
  destruct (cache !! Forecast.cacheKey currentAqi trendSlope) as [entry|] eqn:Hentry;
    [| reflexivity].
  specialize (Hstale entry eq_refl).
  destruct (Z.ltb_spec (now - Forecast.timestamp entry) Forecast.FORECAST_CACHE_TTL);
    [lia | reflexivity].
Qed.

Lemma fallback_never_low (predicted : Z) :
  (if (300 <? predicted)%Z then "Extreme"
   else if (200 <? predicted)%Z then "High" else "Medium")%string <> "Low"%string.
Proof.
  destruct (300 <? predicted)%Z; [discriminate |].
  destruct (200 <? predicted)%Z; discriminate.
Qed.

(** X22: the fallback projections follow the sign of the slope: with a
    slope of 0 or more the predicted AQI does not fall from 24 to 48 to 72
    hours, with a slope of 0 or less it does not rise; no predicted AQI is
    negative, and none is classed [Low]. *)
Theorem getAqiForecast_fallback_shape `{Host}
    (cache : Forecast.ForecastCache) (now : Z) (currentAqi trendSlope : Q) :
  (forall entry,
     cache !! Forecast.cacheKey currentAqi trendSlope = Some entry ->
     (Forecast.FORECAST_CACHE_TTL <= now - Forecast.timestamp entry)%Z) ->
  exists p24 p48 p72,
    fst (Forecast.getAqiForecast cache now None currentAqi trendSlope) = [p24; p48; p72]
    /\ (0 <= trendSlope ->
        (Forecast.aqi p24 <= Forecast.aqi p48 <= Forecast.aqi p72)%Z)
    /\ (trendSlope <= 0 ->
        (Forecast.aqi p72 <= Forecast.aqi p48 <= Forecast.aqi p24)%Z)
    /\ Forall (fun p => (0 <= Forecast.aqi p)%Z
                        /\ Forecast.riskLevel p <> "Low"%string)
         [p24; p48; p72].
Proof.
  intros Hstale. rewrite (fallback_list cache now currentAqi trendSlope Hstale).
  do 3 eexists. split; [reflexivity |].
  cbn [Forecast.aqi Forecast.project Forecast.riskLevel].
  split; [| split].
  - intros Hslope. split; apply Z.max_le_compat_l, Math_round_monotone;
      change (inject_Z 24) with 24; change (inject_Z 48) with 48;
      change (inject_Z 72) with 72; nra.
  - intros Hslope. split; apply Z.max_le_compat_l, Math_round_monotone;
      change (inject_Z 24) with 24; change (inject_Z 48) with 48;
      change (inject_Z 72) with 72; nra.
  - repeat (apply List.Forall_cons;
            [split; [apply Z.le_max_l | apply fallback_never_low] |]).
    apply List.Forall_nil.
Qed.

Lemma getAqiForecast_fallback_shape_witness :
  exists p24 p48 p72,
    fst (Forecast.getAqiForecast (H := example_host) ∅ 1700000000000 None 120 (-(3))) 
      = [p24; p48; p72]
    /\ (Forecast.aqi p72 <= Forecast.aqi p48 <= Forecast.aqi p24)%Z.
Proof.
  destruct (getAqiForecast_fallback_shape (H := example_host) ∅ 1700000000000 120 (-(3)))
    as (p24 & p48 & p72 & Hrun & _ & Hdown & _).
  - intros entry Hentry. discriminate Hentry.
  - exists p24, p48, p72. split; [exact Hrun |]. apply Hdown. discriminate.
Defined.

Local Close Scope Q_scope.

(** ** The header badge of [App] *)

(** X23: the header badge and the service's status agree up to their
    grain: the badge reads GOOD or MODERATE exactly when the status is GOOD
    or MODERATE, POOR or V. POOR exactly when the status is POOR, and SEVERE
    exactly when the status is SEVERE or HAZARDOUS. *)
Theorem header_badge_and_status (a : Z) :
  (status_label (getAqiStatusLabel (Int a)) = "GOOD"
   <-> getStatusFromAQI (Int a) = GOOD)
  /\ (status_label (getAqiStatusLabel (Int a)) = "MODERATE"
      <-> getStatusFromAQI (Int a) = MODERATE)
  /\ (status_label (getAqiStatusLabel (Int a)) = "POOR"
      \/ status_label (getAqiStatusLabel (Int a)) = "V. POOR"
      <-> getStatusFromAQI (Int a) = POOR)
  /\ (status_label (getAqiStatusLabel (Int a)) = "SEVERE"
      <-> getStatusFromAQI (Int a) = SEVERE \/ getStatusFromAQI (Int a) = HAZARDOUS).
Proof.
  unfold getAqiStatusLabel, getStatusFromAQI, gt.
  split_bins; repeat split; settle_table.
Qed.




(** ** The mitigation plan *)

(** X25: [getMitigationPlan] never hands out an empty field: whether the
    model failed, answered nothing, answered text that does not parse, or
    left fields out, [summary], [steps] and [priority] are all truthy. *)
Theorem getMitigationPlan_complete `{Host} (response : outcome (option string)) :
  truthy (summary (getMitigationPlan response)) = true
  /\ truthy (steps (getMitigationPlan response)) = true
  /\ truthy (priority (getMitigationPlan response)) = true.
Proof.
  unfold getMitigationPlan.
  destruct response as [text|e]; [| repeat split].
  rewrite bind_returns.
  destruct (present text) as [t|].
  - destruct (JSON_parse (trim t)) as [data|]; [| repeat split].
    rewrite bind_returns.
    destruct (get data "summary") as [s|]; [| repeat split]. rewrite bind_returns.
    destruct (get data "steps") as [st|]; [| repeat split]. rewrite bind_returns.
    destruct (get data "priority") as [pr|]; [| repeat split]. rewrite bind_returns.
    cbn [summary steps priority].
    destruct (truthy s) eqn:Hs, (truthy st) eqn:Hst, (truthy pr) eqn:Hpr;
      repeat split; assumption || reflexivity.
  - repeat split.
Qed.

(** ** The slope of a linear series *)

Local Open Scope Q_scope.

Lemma sigma_ext_below (n : nat) (f g : nat -> Q) :
  (forall k, (k < n)%nat -> f k == g k) -> sigma n f == sigma n g.
Proof.
  intros Hfg. unfold sigma.
  assert (Hseq : forall k, In k (seq 0 n) -> f k == g k).
  { intros k Hk. apply Hfg. apply in_seq in Hk. lia. }
  induction (seq 0 n) as [|k ks IH]; simpl; [reflexivity |].
  rewrite (Hseq k (or_introl eq_refl)), IH; [reflexivity |].
  intros j Hj. apply Hseq. now right.
Qed.

Lemma sigma_linear (n : nat) (f g : nat -> Q) (a b : Q) :
  sigma n (fun k => a * f k + b * g k) == a * sigma n f + b * sigma n g.
Proof.
  unfold sigma. induction (seq 0 n) as [|k ks IH]; simpl; [ring |].
  rewrite IH. ring.
Qed.

Lemma sigma_ones (n : nat) : sigma n (fun _ => 1) == inject_Z (Z.of_nat n).
Proof.
  induction n as [|n IH]; [reflexivity |].
  rewrite sigma_last, IH, inject_succ. reflexivity.
Qed.

(** X26: on a series of integer readings that grows by the same step [d]
    from one entry to the next, [calculateTrendSlope] returns [d].  The
    bounds (at most 1000 points, a first reading of magnitude up to 10^6, a
    step of magnitude up to 1000) keep every sum of the loop an integer
    below 2^53, the range in which the doubles of the source are exact. *)
Theorem calculateTrendSlope_linear (history : list HistoryPoint) (y0 d : Z) :
  (2 <= List.length history <= 1000)%nat ->
  (Z.abs y0 <= 1000000)%Z ->
  (Z.abs d <= 1000)%Z ->
  (forall k, (k < List.length history)%nat ->
             series history k == inject_Z (y0 + d * Z.of_nat k)) ->
  calculateTrendSlope history == inject_Z d.
Proof.
  intros [Hlong _] _ _ Hlinear.
  pose proof (ols_denominator_nonzero _ Hlong) as Hden.
  rewrite (slope_is_quotient history Hlong Hden).
  set (n := List.length history) in *.
  assert (Hnum : ols_numerator (series history) n == inject_Z d * ols_denominator n).
  { unfold ols_numerator, ols_denominator.
    set (q := inject_Z (Z.of_nat n)).
    set (s1 := sigma n (fun x => inject_Z (Z.of_nat x))).
    set (s2 := sigma n (fun x => inject_Z (Z.of_nat x) * inject_Z (Z.of_nat x))).
    assert (Hxy : sigma n (fun x => inject_Z (Z.of_nat x) * series history x)
                  == inject_Z y0 * s1 + inject_Z d * s2).
    { rewrite (sigma_ext_below n _
                 (fun x => inject_Z y0 * inject_Z (Z.of_nat x)
                           + inject_Z d * (inject_Z (Z.of_nat x) * inject_Z (Z.of_nat x)))).
      - apply sigma_linear.
      - intros k Hk. rewrite (Hlinear k Hk), inject_Z_plus, inject_Z_mult. ring. }
    assert (Hy : sigma n (series history) == inject_Z y0 * q + inject_Z d * s1).
    { rewrite (sigma_ext_below n _
                 (fun x => inject_Z y0 * 1 + inject_Z d * inject_Z (Z.of_nat x))).
      - rewrite (sigma_linear n (fun _ => 1) (fun x => inject_Z (Z.of_nat x))
                   (inject_Z y0) (inject_Z d)).
        rewrite sigma_ones. reflexivity.
      - intros k Hk. rewrite (Hlinear k Hk), inject_Z_plus, inject_Z_mult. ring. }
    rewrite Hxy, Hy. ring. }
  unfold ols_slope. rewrite Hnum. field. exact Hden.
Qed.

Lemma calculateTrendSlope_linear_witness :
  calculateTrendSlope
    [ {| point_aqi := 300 |}; {| point_aqi := 293 |};
      {| point_aqi := 286 |}; {| point_aqi := 279 |} ] == inject_Z (-7).
Proof.
  apply (calculateTrendSlope_linear _ 300 (-7)).
  - simpl. lia.
  - simpl. lia.
  - simpl. lia.
  - intros [|[|[|[|k]]]] Hk; simpl in Hk; try lia; reflexivity.
Defined.

Local Close Scope Q_scope.

(** X27: the fast path never serves an entry that is ten minutes old or
    more, nor one whose AQI does not read as a positive number: a hit means
    the slot parsed to an entry whose age is below 600000 ms and whose
    [data.aqi] is above 0. *)
Theorem cache_hit_is_fresh_and_positive `{Host} (store : Storage) (now : Z) (data : value) :
  cache_check store now = Some data ->
  exists cached parsed timestamp a,
    store !! CACHE_KEY = Some cached
    /\ JSON_parse cached = Some parsed
    /\ get parsed "data" = Returns data
    /\ get parsed "timestamp" = Returns timestamp
    /\ lt (sub (Int now) (ToNumber timestamp)) (Int 600000) = true
    /\ get data "aqi" = Returns a
    /\ gt (ToNumber a) (Int 0) = true.
Proof. apply cache_check_hit. Qed.

Lemma cache_hit_is_fresh_and_positive_witness :
  exists cached parsed timestamp a,
    ({[ CACHE_KEY := entry_text ]} : Storage) !! CACHE_KEY = Some cached
    /\ JSON_parse (Host := example_host) cached = Some parsed
    /\ get parsed "data" = Returns (VObj [ ("aqi", VNum (Int 412)) ])
    /\ get parsed "timestamp" = Returns timestamp
    /\ lt (sub (Int 1700000000000) (ToNumber (H := example_host) timestamp)) (Int 600000) = true
    /\ get (VObj [ ("aqi", VNum (Int 412)) ]) "aqi" = Returns a
    /\ gt (ToNumber (H := example_host) a) (Int 0) = true.
Proof.
  apply (cache_hit_is_fresh_and_positive (H := example_host)).
  vm_compute. reflexivity.
Defined.
